(** * kdmain: the Python binding of the KD-tree / SPH smoothing engine

    A shallow embedding of [src/pynbody/sph/kdmain.c] and a verification of
    the properties its specification states about it.

    The C functions of [kdmain.c] are embedded as state-passing functions in
    a small monad [M]: the state holds the numpy arrays of the host (with
    their reference counts), the [KD] contexts and the [SMX] smoothing
    contexts; a computation either returns, aborts on a failed [assert],
    runs into undefined behaviour, or runs out of fuel.

    [kd.h], [kd.c], [smooth.h] and [smooth.c] are not part of the sources:
    the structs are declared from their uses in [kdmain.c], and the functions
    of that library are modelled from the specification (each such
    definition says so). Floating-point arithmetic is kept abstract in the
    class [Numeric]. *)

From Stdlib Require Import ZArith Lia String Ascii.
From stdpp Require Import base option list gmap strings.

Set Warnings "-register-all".
Local Open Scope Z_scope.

(** ** Numbers *)

(** The arithmetic of C [double] and [float] values. [fcast] is the
    conversion [(float)x]; [kernelW h r2] is the smoothing kernel weight at
    squared distance [r2] for smoothing length [h]. *)
Class Numeric := {
  real : Type;
  r0 : real;
  radd : real → real → real;
  rsub : real → real → real;
  rmul : real → real → real;
  rofZ : Z → real;
  rleb : real → real → bool;
  rsqrt : real → real;
  fcast : real → real;
  kernelW : real → real → real;
}.

(** An instance over the integers, to run the model on concrete inputs. *)
Definition ZNumeric : Numeric := {|
  real := Z;
  r0 := 0;
  radd := Z.add;
  rsub := Z.sub;
  rmul := Z.mul;
  rofZ := λ z, z;
  rleb := Z.leb;
  rsqrt := Z.sqrt;
  fcast := λ x, x;
  kernelW := λ h r2, 1;
|}.

(** C [int]: 32 bits, two's complement. *)
Definition INT_MIN : Z := - 2 ^ 31.
Definition INT_MAX : Z := 2 ^ 31 - 1.

Definition in_int (z : Z) : bool := (INT_MIN <=? z) && (z <=? INT_MAX).

(** Conversion of an [npy_intp] to [int]. *)
Definition int_of_intp (z : Z) : Z := (z + 2 ^ 31) mod 2 ^ 32 - 2 ^ 31.

(** [l[i]] for a C index [i]. *)
Definition zlookup {A} (l : list A) (i : Z) : option A :=
  if i <? 0 then None else l !! Z.to_nat i.

(** [l[i] = x] for an index [i] of the list; no other index is written. *)
Definition zinsert {A} (i : Z) (x : A) (l : list A) : list A :=
  if i <? 0 then l else <[Z.to_nat i := x]> l.

Definition sizeof_double : Z := 8.

(** Stable insertion sort for a boolean order. *)
Fixpoint insert_by {A} (leb : A → A → bool) (x : A) (l : list A) : list A :=
  match l with
  | [] => [x]
  | y :: l' => if leb x y then x :: l else y :: insert_by leb x l'
  end.

Fixpoint sort_by {A} (leb : A → A → bool) (l : list A) : list A :=
  match l with
  | [] => []
  | x :: l' => insert_by leb x (sort_by leb l')
  end.

(** How a computation ends: it returns, a failed [assert] aborts the
    process, it leaves defined behaviour, or it is still running when the
    fuel is spent. *)
Inductive outcome (A : Type) :=
| Return (a : A)
| Abort
| Undef
| OutOfFuel.
Arguments Return {A} a.
Arguments Abort {A}.
Arguments Undef {A}.
Arguments OutOfFuel {A}.

Module Kdmain.

Section Model.

Context {num : Numeric}.

(** ** Python objects *)

Inductive PyObject :=
| Py_None
| PyLong (z : Z)
| PyFloat (x : real)
| PyList (items : list (option PyObject))
| PyArr (a : positive)
| PyCapsule (ptr : positive).

Inductive PyExc :=
| PyExc_TypeError
| PyExc_ValueError
| PyExc_RuntimeError
| PyExc_SystemError.

(** What a C function of the module hands back to the interpreter: an
    object, or [NULL] with the error indicator set. *)
Inductive PyRet :=
| Ok (o : PyObject)
| Err (e : PyExc) (msg : string).

Record PyArray_Descr := {
  kind : ascii;
  elsize : Z;
}.

(** A numpy array of the host: reference count, dtype, shape and the
    elements in row-major order. *)
Record PyArrayObject := {
  ob_refcnt : Z;
  descr : option PyArray_Descr;
  dims : list Z;
  data : list real;
}.

(** ** The structs of kd.h and smooth.h *)

Record PARTICLE := {
  iOrder : Z;
  iMark : Z;
}.

Record BND := {
  fMin : list real;
  fMax : list real;
}.

Inductive KDN :=
| KDLeaf (bnd : BND) (bucket : list PARTICLE)
| KDSplit (bnd : BND) (iDim : nat) (fSplit : real) (lower upper : KDN).

Record KD := {
  nBucket : Z;
  nParticles : Z;
  nActive : Z;
  p : list PARTICLE;
  kdNodes : option KDN;
  pNumpyPos : option PyObject;
  pNumpyMass : option PyObject;
  pNumpySmooth : option PyObject;
  pNumpyDen : option PyObject;
  pNumpyQty : option PyObject;
  pNumpyQtySmoothed : option PyObject;
}.

Record SMX := {
  smx_kd : positive;
  nSmooth : Z;
  pi : Z;
  pNext : Z;
  pList : list Z;
  fList : list real;
  warnings : bool;
  smx_global : option positive;
}.

(** The calls into smooth.c, in the order they are made. *)
Inductive Call :=
| Call_smGetNext (i : Z)
| Call_smSmoothStep (procid : Z) (nCnt : Z)
| Call_smBallGather (fBall2 : real) (ri : list real) (nCnt : Z)
| Call_smDensity (pi : Z) (nCnt : Z)
| Call_smDomainDecomposition (nprocs : Z).

Record State := {
  arrays : gmap positive PyArrayObject;
  kds : gmap positive KD;
  smxs : gmap positive SMX;
  next : positive;
  calls : list Call;
}.

(** ** The monad *)

Definition M (A : Type) : Type := State → outcome (A * State).

Definition ret {A} (a : A) : M A := λ st, Return (a, st).

Definition bind {A B} (m : M A) (k : A → M B) : M B :=
  λ st, match m st with
        | Return (a, st') => k a st'
        | Abort => Abort
        | Undef => Undef
        | OutOfFuel => OutOfFuel
        end.

Definition undef {A} : M A := λ _, Undef.
Definition abort {A} : M A := λ _, Abort.
Definition out_of_fuel {A} : M A := λ _, OutOfFuel.

Definition get_state : M State := λ st, Return (st, st).

Definition of_option {A} (o : option A) : M A :=
  match o with Some a => ret a | None => undef end.

#[global] Instance M_ret : MRet M := @ret.
#[global] Instance M_bind : MBind M := λ A B k m, bind m k.

Fixpoint mapM {A B} (f : A → M B) (l : list A) : M (list B) :=
  match l with
  | [] => ret []
  | x :: l' => y ← f x; ys ← mapM f l'; ret (y :: ys)
  end.

(** *** Field updates *)

Definition set_arrays (v : gmap positive PyArrayObject) (st : State) : State :=
  {| arrays := v; kds := kds st; smxs := smxs st; next := next st;
     calls := calls st |}.
Definition set_kds (v : gmap positive KD) (st : State) : State :=
  {| arrays := arrays st; kds := v; smxs := smxs st; next := next st;
     calls := calls st |}.
Definition set_smxs (v : gmap positive SMX) (st : State) : State :=
  {| arrays := arrays st; kds := kds st; smxs := v; next := next st;
     calls := calls st |}.
Definition set_next (v : positive) (st : State) : State :=
  {| arrays := arrays st; kds := kds st; smxs := smxs st; next := v;
     calls := calls st |}.
Definition set_calls (v : list Call) (st : State) : State :=
  {| arrays := arrays st; kds := kds st; smxs := smxs st; next := next st;
     calls := v |}.

Definition set_ob_refcnt (v : Z) (arr : PyArrayObject) : PyArrayObject :=
  {| ob_refcnt := v; descr := descr arr; dims := dims arr; data := data arr |}.
Definition set_data (v : list real) (arr : PyArrayObject) : PyArrayObject :=
  {| ob_refcnt := ob_refcnt arr; descr := descr arr; dims := dims arr;
     data := v |}.

Definition set_counts (n : Z) (kd : KD) : KD :=
  {| nBucket := nBucket kd; nParticles := n; nActive := n; p := p kd;
     kdNodes := kdNodes kd; pNumpyPos := pNumpyPos kd;
     pNumpyMass := pNumpyMass kd; pNumpySmooth := pNumpySmooth kd;
     pNumpyDen := pNumpyDen kd; pNumpyQty := pNumpyQty kd;
     pNumpyQtySmoothed := pNumpyQtySmoothed kd |}.
Definition set_p (v : list PARTICLE) (kd : KD) : KD :=
  {| nBucket := nBucket kd; nParticles := nParticles kd;
     nActive := nActive kd; p := v;
     kdNodes := kdNodes kd; pNumpyPos := pNumpyPos kd;
     pNumpyMass := pNumpyMass kd; pNumpySmooth := pNumpySmooth kd;
     pNumpyDen := pNumpyDen kd; pNumpyQty := pNumpyQty kd;
     pNumpyQtySmoothed := pNumpyQtySmoothed kd |}.
Definition set_kdNodes (v : option KDN) (kd : KD) : KD :=
  {| nBucket := nBucket kd; nParticles := nParticles kd;
     nActive := nActive kd; p := p kd;
     kdNodes := v; pNumpyPos := pNumpyPos kd;
     pNumpyMass := pNumpyMass kd; pNumpySmooth := pNumpySmooth kd;
     pNumpyDen := pNumpyDen kd; pNumpyQty := pNumpyQty kd;
     pNumpyQtySmoothed := pNumpyQtySmoothed kd |}.
Definition set_pNumpyPos (v : option PyObject) (kd : KD) : KD :=
  {| nBucket := nBucket kd; nParticles := nParticles kd;
     nActive := nActive kd; p := p kd;
     kdNodes := kdNodes kd; pNumpyPos := v;
     pNumpyMass := pNumpyMass kd; pNumpySmooth := pNumpySmooth kd;
     pNumpyDen := pNumpyDen kd; pNumpyQty := pNumpyQty kd;
     pNumpyQtySmoothed := pNumpyQtySmoothed kd |}.
Definition set_pNumpyMass (v : option PyObject) (kd : KD) : KD :=
  {| nBucket := nBucket kd; nParticles := nParticles kd;
     nActive := nActive kd; p := p kd;
     kdNodes := kdNodes kd; pNumpyPos := pNumpyPos kd;
     pNumpyMass := v; pNumpySmooth := pNumpySmooth kd;
     pNumpyDen := pNumpyDen kd; pNumpyQty := pNumpyQty kd;
     pNumpyQtySmoothed := pNumpyQtySmoothed kd |}.
Definition set_pNumpySmooth (v : option PyObject) (kd : KD) : KD :=
  {| nBucket := nBucket kd; nParticles := nParticles kd;
     nActive := nActive kd; p := p kd;
     kdNodes := kdNodes kd; pNumpyPos := pNumpyPos kd;
     pNumpyMass := pNumpyMass kd; pNumpySmooth := v;
     pNumpyDen := pNumpyDen kd; pNumpyQty := pNumpyQty kd;
     pNumpyQtySmoothed := pNumpyQtySmoothed kd |}.
Definition set_pNumpyDen (v : option PyObject) (kd : KD) : KD :=
  {| nBucket := nBucket kd; nParticles := nParticles kd;
     nActive := nActive kd; p := p kd;
     kdNodes := kdNodes kd; pNumpyPos := pNumpyPos kd;
     pNumpyMass := pNumpyMass kd; pNumpySmooth := pNumpySmooth kd;
     pNumpyDen := v; pNumpyQty := pNumpyQty kd;
     pNumpyQtySmoothed := pNumpyQtySmoothed kd |}.
Definition set_pNumpyQty (v : option PyObject) (kd : KD) : KD :=
  {| nBucket := nBucket kd; nParticles := nParticles kd;
     nActive := nActive kd; p := p kd;
     kdNodes := kdNodes kd; pNumpyPos := pNumpyPos kd;
     pNumpyMass := pNumpyMass kd; pNumpySmooth := pNumpySmooth kd;
     pNumpyDen := pNumpyDen kd; pNumpyQty := v;
     pNumpyQtySmoothed := pNumpyQtySmoothed kd |}.
Definition set_pNumpyQtySmoothed (v : option PyObject) (kd : KD) : KD :=
  {| nBucket := nBucket kd; nParticles := nParticles kd;
     nActive := nActive kd; p := p kd;
     kdNodes := kdNodes kd; pNumpyPos := pNumpyPos kd;
     pNumpyMass := pNumpyMass kd; pNumpySmooth := pNumpySmooth kd;
     pNumpyDen := pNumpyDen kd; pNumpyQty := pNumpyQty kd;
     pNumpyQtySmoothed := v |}.

Definition set_cursor (v : Z) (s : SMX) : SMX :=
  {| smx_kd := smx_kd s; nSmooth := nSmooth s; pi := pi s; pNext := v;
     pList := pList s; fList := fList s; warnings := warnings s;
     smx_global := smx_global s |}.
Definition set_pi (v : Z) (s : SMX) : SMX :=
  {| smx_kd := smx_kd s; nSmooth := nSmooth s; pi := v; pNext := pNext s;
     pList := pList s; fList := fList s; warnings := warnings s;
     smx_global := smx_global s |}.
Definition set_warnings (v : bool) (s : SMX) : SMX :=
  {| smx_kd := smx_kd s; nSmooth := nSmooth s; pi := pi s; pNext := pNext s;
     pList := pList s; fList := fList s; warnings := v;
     smx_global := smx_global s |}.
Definition set_scratch (l : list Z) (f : list real) (s : SMX) : SMX :=
  {| smx_kd := smx_kd s; nSmooth := nSmooth s; pi := pi s; pNext := pNext s;
     pList := l; fList := f; warnings := warnings s;
     smx_global := smx_global s |}.

(** *** The stores *)

Definition get_kd (a : positive) : M KD :=
  λ st, match kds st !! a with
        | Some kd => Return (kd, st)
        | None => Undef
        end.
Definition put_kd (a : positive) (kd : KD) : M unit :=
  λ st, Return (tt, set_kds (<[a:=kd]> (kds st)) st).

Definition get_smx (a : positive) : M SMX :=
  λ st, match smxs st !! a with
        | Some s => Return (s, st)
        | None => Undef
        end.
Definition put_smx (a : positive) (s : SMX) : M unit :=
  λ st, Return (tt, set_smxs (<[a:=s]> (smxs st)) st).
Definition free_smx (a : positive) : M unit :=
  λ st, Return (tt, set_smxs (delete a (smxs st)) st).

Definition get_array (a : positive) : M PyArrayObject :=
  λ st, match arrays st !! a with
        | Some arr => Return (arr, st)
        | None => Undef
        end.
Definition put_array (a : positive) (arr : PyArrayObject) : M unit :=
  λ st, Return (tt, set_arrays (<[a:=arr]> (arrays st)) st).

(** A fresh address for a [malloc]ed context. *)
Definition malloc : M positive :=
  λ st, Return (next st, set_next (Pos.succ (next st)) st).

Definition log (c : Call) : M unit :=
  λ st, Return (tt, set_calls (calls st ++ [c]) st).

(** ** The Python and numpy C API *)

(** Reference counts are tracked for the arrays of the host; an array whose
    count has dropped to 0 has been deallocated. Other objects, and
    addresses at which the host has no array, are not tracked. *)
Definition Py_INCREF (o : PyObject) : M unit :=
  match o with
  | PyArr a =>
      λ st, Return (tt, set_arrays
        (alter (λ arr, set_ob_refcnt (ob_refcnt arr + 1) arr) a (arrays st)) st)
  | _ => ret tt
  end.

Definition Py_XDECREF (o : option PyObject) : M unit :=
  match o with
  | Some (PyArr a) =>
      λ st, Return (tt, set_arrays
        (alter (λ arr, set_ob_refcnt (ob_refcnt arr - 1) arr) a (arrays st)) st)
  | _ => ret tt
  end.

Definition PyCapsule_GetPointer (o : PyObject) : option positive :=
  match o with
  | PyCapsule ptr => Some ptr
  | _ => None
  end.

Definition capsule_error : PyRet :=
  Err PyExc_ValueError "PyCapsule_GetPointer called with invalid PyCapsule object".

Inductive argval :=
| AObj (o : PyObject)
| AInt (z : Z).

(** [PyArg_ParseTuple] for the format units the module uses: [O] takes any
    object, [i] a Python integer that fits a C [int]. *)
Fixpoint PyArg_ParseTuple (args : list PyObject) (format : string)
  : option (list argval) :=
  match format, args with
  | EmptyString, [] => Some []
  | String c format', o :: args' =>
      if Ascii.eqb c "O" then
        cons (AObj o) <$> PyArg_ParseTuple args' format'
      else if Ascii.eqb c "i" then
        match o with
        | PyLong z =>
            if in_int z then cons (AInt z) <$> PyArg_ParseTuple args' format'
            else None
        | _ => None
        end
      else None
  | _, _ => None
  end.

Definition PyArray_DIM (o : option PyObject) (i : nat) : M Z :=
  match o with
  | Some (PyArr a) => arr ← get_array a; of_option (dims arr !! i)
  | _ => undef
  end.

(** [PyList_New(n)] is [NULL] for a negative [n]; the items of a new list
    are [NULL]. *)
Definition PyList_New (n : Z) : option (list (option PyObject)) :=
  if n <? 0 then None else Some (replicate (Z.to_nat n) None).

Definition PyList_SetItem (l : list (option PyObject)) (i : Z)
    (o : option PyObject) : list (option PyObject) :=
  zinsert i o l.

Definition as_list (l : option (list (option PyObject))) : option PyObject :=
  PyList <$> l.

(** *** The element macros of kd.h

    kd.h is not part of the sources. A binding holds one double per
    original particle index, positions are an (n,3) buffer; an access
    outside the buffer is undefined. *)

(** Modelled from the spec: the macro [GET] of kd.h, the element [i] of a
    bound buffer. *)
Definition GET (o : option PyObject) (i : Z) : M real :=
  match o with
  | Some (PyArr a) => arr ← get_array a; of_option (zlookup (data arr) i)
  | _ => undef
  end.

(** Modelled from the spec: the macro [GET2] of kd.h, the coordinate [j]
    of row [i] of the position buffer. *)
Definition GET2 (o : option PyObject) (i j : Z) : M real :=
  match o with
  | Some (PyArr a) =>
      arr ← get_array a;
      if (0 <=? j) && (j <? 3) then of_option (zlookup (data arr) (i * 3 + j))
      else undef
  | _ => undef
  end.

(** Modelled from the spec: the macro [SET] of kd.h, which writes the
    element [i] of a bound buffer. *)
Definition SET (o : option PyObject) (i : Z) (v : real) : M unit :=
  match o with
  | Some (PyArr a) =>
      arr ← get_array a;
      match zlookup (data arr) i with
      | Some _ => put_array a (set_data (zinsert i v (data arr)) arr)
      | None => undef
      end
  | _ => undef
  end.

(** ** kd.c

    kd.c is not part of the sources; [kdmain.c] calls [kdInit],
    [kdBuildTree] and [kdFinish]. *)

(** Modelled from the spec: the context that [kdInit] of kd.c sets up. The
    tree is created from a bucket-size parameter; it has neither particles
    nor nodes nor bound fields yet. *)
Definition empty_context (nBucket : Z) : KD :=
  {| nBucket := nBucket; nParticles := 0; nActive := 0; p := [];
     kdNodes := None; pNumpyPos := None; pNumpyMass := None;
     pNumpySmooth := None; pNumpyDen := None; pNumpyQty := None;
     pNumpyQtySmoothed := None |}.

(** Modelled from the spec: [kdInit] of kd.c, which allocates the context
    of a tree for the bucket capacity [nBucket]. *)
Definition kdInit (nBucket : Z) : M positive :=
  kd ← malloc;
  put_kd kd (empty_context nBucket);;
  ret kd.

(** Modelled from the spec: the coordinate [d] of a particle, read from the
    (n,3) position buffer at the particle's original index (kd.c is not
    part of the sources). *)
Definition coord (pos : PyArrayObject) (q : PARTICLE) (d : nat) : real :=
  default r0 (zlookup (data pos) (iOrder q * 3 + Z.of_nat d)).

(** Modelled from the spec: the position of a particle, its three
    coordinates. *)
Definition particle_pos (pos : PyArrayObject) (q : PARTICLE) : list real :=
  map (coord pos q) [0; 1; 2]%nat.

(** The smaller and the larger of two values. *)
Definition rmin (x y : real) : real := if rleb x y then x else y.
Definition rmax (x y : real) : real := if rleb x y then y else x.

(** Modelled from the spec: the lower bound along the axis [d] of the
    particles of a node of kd.c. *)
Definition axis_min (pos : PyArrayObject) (ps : list PARTICLE) (d : nat) : real :=
  match ps with
  | [] => r0
  | q :: ps' => foldr (λ q' m, rmin (coord pos q' d) m) (coord pos q d) ps'
  end.

(** Modelled from the spec: the upper bound along the axis [d] of the
    particles of a node of kd.c. *)
Definition axis_max (pos : PyArrayObject) (ps : list PARTICLE) (d : nat) : real :=
  match ps with
  | [] => r0
  | q :: ps' => foldr (λ q' m, rmax (coord pos q' d) m) (coord pos q d) ps'
  end.

(** Modelled from the spec: the axis-aligned bounds of a node of kd.c,
    which enclose the particles of the node tightly. *)
Definition bounds (pos : PyArrayObject) (ps : list PARTICLE) : BND :=
  {| fMin := map (axis_min pos ps) [0; 1; 2]%nat;
     fMax := map (axis_max pos ps) [0; 1; 2]%nat |}.

(** Modelled from the spec: the spatial extent of the particles of a node
    of kd.c along the axis [d]. *)
Definition extent (pos : PyArrayObject) (ps : list PARTICLE) (d : nat) : real :=
  rsub (axis_max pos ps d) (axis_min pos ps d).

(** Modelled from the spec: the split axis of a node of [kdBuildTree], the
    axis of greatest extent, x before y before z when extents are equal. *)
Definition widest_axis (pos : PyArrayObject) (ps : list PARTICLE) : nat :=
  let d := 0%nat in
  let d := if rleb (extent pos ps 1) (extent pos ps d) then d else 1%nat in
  let d := if rleb (extent pos ps 2) (extent pos ps d) then d else 2%nat in
  d.

(** Modelled from the spec: the recursive partition of [kdBuildTree]. A node
    of at most [nBucket] particles is a leaf; a larger one is split along its
    widest axis about the median particle, the particles being reordered so
    that the lower half comes first, and each half is built in turn. *)
Fixpoint build_node (fuel : nat) (pos : PyArrayObject) (nBucket : Z)
    (ps : list PARTICLE) : option KDN :=
  match fuel with
  | O => None
  | S fuel' =>
      if Z.of_nat (length ps) <=? nBucket then Some (KDLeaf (bounds pos ps) ps)
      else
        let d := widest_axis pos ps in
        let sorted := sort_by (λ a b, rleb (coord pos a d) (coord pos b d)) ps in
        let m := (length ps / 2)%nat in
        let half_lo := take m sorted in
        let half_hi := drop m sorted in
        let split := from_option (λ q, coord pos q d) r0 (head half_hi) in
        match build_node fuel' pos nBucket half_lo,
              build_node fuel' pos nBucket half_hi with
        | Some lo, Some hi => Some (KDSplit (bounds pos ps) d split lo hi)
        | _, _ => None
        end
  end.

(** Modelled from the spec: the physical order of the particles after
    [kdBuildTree], the buckets of the leaves from left to right. *)
Fixpoint buckets (t : KDN) : list PARTICLE :=
  match t with
  | KDLeaf _ bucket => bucket
  | KDSplit _ _ _ lo hi => buckets lo ++ buckets hi
  end.

(** Modelled from the spec: [kdBuildTree] of kd.c, which builds the nodes
    over the particles of the context and reorders the particles in place. *)
Definition kdBuildTree (fuel : nat) (kd : positive) : M unit :=
  k ← get_kd kd;
  match pNumpyPos k with
  | Some (PyArr a) =>
      pos ← get_array a;
      match build_node fuel pos (nBucket k) (p k) with
      | Some t => put_kd kd (set_kdNodes (Some t) (set_p (buckets t) k))
      | None => out_of_fuel
      end
  | _ => undef
  end.

(** Modelled from the spec: [kdFinish] of kd.c, which releases the node
    memory and the particle array of the tree. *)
Definition kdFinish (kd : positive) : M unit :=
  k ← get_kd kd;
  put_kd kd (set_kdNodes None (set_p [] k)).

(** ** smooth.c

    smooth.c is not part of the sources; [kdmain.c] calls the functions
    below. The neighbour searches are modelled by their results (the tree
    traversal only prunes the search). *)

(** Modelled from the spec: the session that [smInit] of smooth.c sets up,
    bound to one tree, with its cursor at the start and an empty scratch. *)
Definition new_session (kd : positive) (nSmooth : Z) : SMX :=
  {| smx_kd := kd; nSmooth := nSmooth; pi := 0; pNext := 0;
     pList := []; fList := []; warnings := true; smx_global := None |}.

(** Modelled from the spec: [smInit] of smooth.c, which validates that the
    target neighbour count is at least 1. The result is 0 ([None]) on
    failure. *)
Definition smInit (kd : positive) (nSmooth : Z) : M (option positive) :=
  _ ← get_kd kd;
  if nSmooth <? 1 then ret None
  else
    smx ← malloc;
    put_smx smx (new_session kd nSmooth);;
    ret (Some smx).

(** Modelled from the spec: [smSmoothInitStep] of smooth.c, the rewind: it
    resets the cursor to the start and keeps tree and scratch. *)
Definition smSmoothInitStep (smx : positive) (nProcs : Z) : M unit :=
  s ← get_smx smx;
  put_smx smx (set_cursor 0 (set_pi 0 s)).

(** Modelled from the spec: [smFinish] of smooth.c releases the session;
    the tree is untouched. *)
Definition smFinish (smx : positive) : M unit :=
  _ ← get_smx smx;
  free_smx smx.

(** Modelled from the spec: [smInitThreadLocalCopy] of smooth.c. The copy
    shares tree and field bindings with the session it is made from, and has
    a cursor position and scratch of its own. *)
Definition smInitThreadLocalCopy (smx_global : positive) : M positive :=
  g ← get_smx smx_global;
  smx_local ← malloc;
  put_smx smx_local {| smx_kd := smx_kd g; nSmooth := nSmooth g; pi := pi g;
                       pNext := pNext g; pList := []; fList := [];
                       warnings := warnings g;
                       smx_global := Some smx_global |};;
  ret smx_local.

(** Modelled from the spec: [smFinishThreadLocalCopy] of smooth.c, which
    releases the copy. *)
Definition smFinishThreadLocalCopy (smx_local : positive) : M unit :=
  _ ← get_smx smx_local;
  free_smx smx_local.

(** Modelled from the spec: the session of smooth.c that holds the claim
    cursor, the global one for a thread-local copy. *)
Definition cursor_owner (smx : positive) (s : SMX) : positive :=
  default smx (smx_global s).

(** Modelled from the spec: [smGetNext] of smooth.c, the claim cursor: fetch
    the next particle index and advance. (All particles are active:
    [kdinit] marks every particle.) *)
Definition smGetNext (smx : positive) : M Z :=
  s ← get_smx smx;
  g ← get_smx (cursor_owner smx s);
  put_smx (cursor_owner smx s) (set_cursor (pNext g + 1) g);;
  log (Call_smGetNext (pNext g));;
  ret (pNext g).

(** Modelled from the spec: the squared distance of the neighbour
    searches of smooth.c. *)
Definition dist2 (a b : list real) : real :=
  foldr radd r0 (zip_with (λ x y, rmul (rsub x y) (rsub x y)) a b).

(** Modelled from the spec: the candidates of a neighbour search of
    smooth.c, every particle with its physical index and its squared
    distance to [ri]. *)
Definition candidates (pos : PyArrayObject) (ps : list PARTICLE)
    (ri : list real) : list (Z * real) :=
  imap (λ j q, (Z.of_nat j, dist2 (particle_pos pos q) ri)) ps.

(** Modelled from the spec: the k-nearest query of smooth.c, the k nearest
    particles, nearest first, ties broken by physical index. *)
Definition query_k_nearest (pos : PyArrayObject) (ps : list PARTICLE)
    (ri : list real) (k : Z) : list (Z * real) :=
  take (Z.to_nat k) (sort_by (λ a b, rleb a.2 b.2) (candidates pos ps ri)).

(** Modelled from the spec: the ball query of smooth.c, the particles with
    distance² ≤ radius². *)
Definition query_ball (pos : PyArrayObject) (ps : list PARTICLE)
    (ri : list real) (fBall2 : real) : list (Z * real) :=
  List.filter (λ c, rleb c.2 fBall2) (candidates pos ps ri).

(** Modelled from the spec: the position buffer that the searches of
    smooth.c read, the one the index was built from. *)
Definition pos_array (k : KD) : M PyArrayObject :=
  match pNumpyPos k with
  | Some (PyArr a) => get_array a
  | _ => undef
  end.

(** Modelled from the spec: [smSmoothStep] of smooth.c, one step of the
    session. When no particle is left it answers -1 (the value [populate]
    tests for). Otherwise it claims the next particle, searches its
    [nSmooth] nearest neighbours into the scratch lists, stores the distance
    to the farthest of them as the particle's smoothing length in the bound
    smoothing field, and answers the number of neighbours. *)
Definition smSmoothStep (smx : positive) (procid : Z) : M Z :=
  s ← get_smx smx;
  k ← get_kd (smx_kd s);
  g ← get_smx (cursor_owner smx s);
  if nActive k <=? pNext g then
    log (Call_smSmoothStep procid (-1));;
    ret (-1)
  else
    i ← smGetNext smx;
    q ← of_option (zlookup (p k) i);
    pos ← pos_array k;
    let nbrs := query_k_nearest pos (p k) (particle_pos pos q) (nSmooth s) in
    SET (pNumpySmooth k) (iOrder q) (rsqrt (default r0 (last nbrs.*2)));;
    s' ← get_smx smx;
    put_smx smx (set_scratch nbrs.*1 nbrs.*2 (set_pi i s'));;
    log (Call_smSmoothStep procid (Z.of_nat (length nbrs)));;
    ret (Z.of_nat (length nbrs)).

(** Modelled from the spec: [smBallGather] of smooth.c, the ball query
    around [ri] into the scratch lists of the session. *)
Definition smBallGather (smx : positive) (fBall2 : real) (ri : list real)
  : M Z :=
  s ← get_smx smx;
  k ← get_kd (smx_kd s);
  pos ← pos_array k;
  let nbrs := query_ball pos (p k) ri fBall2 in
  put_smx smx (set_scratch nbrs.*1 nbrs.*2 s);;
  log (Call_smBallGather fBall2 ri (Z.of_nat (length nbrs)));;
  ret (Z.of_nat (length nbrs)).

(** Modelled from the spec: a term of the sum of [smDensity], the mass of
    the particle at physical index [c.1] weighted by the kernel at squared
    distance [c.2]. *)
Definition weighted_mass (k : KD) (h : real) (c : Z * real) : M real :=
  q ← of_option (zlookup (p k) c.1);
  m ← GET (pNumpyMass k) (iOrder q);
  ret (rmul (kernelW h c.2) m).

(** The sum of a list of values. *)
Definition rsum (l : list real) : real := foldr radd r0 l.

(** Modelled from the spec: [smDensity] of smooth.c. The kernel-weighted
    sum of the masses of the [nCnt] neighbours in the scratch lists is
    written to the bound density field at the original index of particle
    [pi]. *)
Definition smDensity (smx : positive) (pi : Z) (nCnt : Z)
    (pList : list Z) (fList : list real) : M unit :=
  s ← get_smx smx;
  k ← get_kd (smx_kd s);
  q ← of_option (zlookup (p k) pi);
  h ← GET (pNumpySmooth k) (iOrder q);
  terms ← mapM (weighted_mass k h) (take (Z.to_nat nCnt) (zip pList fList));
  SET (pNumpyDen k) (iOrder q) (rsum terms);;
  log (Call_smDensity pi nCnt).

(** Modelled from the spec: [smDomainDecomposition] of smooth.c. Zero
    workers is a no-op; for [nprocs] workers the assignment interleaves the
    physical particle indices, which the claim cursor then hands out. *)
Definition smDomainDecomposition (kd : positive) (nprocs : Z) : M unit :=
  _ ← get_kd kd;
  if nprocs =? 0 then ret tt
  else log (Call_smDomainDecomposition nprocs).

(** ** kdmain.c *)

Definition PROPID_HSM : Z := 1.
Definition PROPID_RHO : Z := 2.
Definition PROPID_QTY1D : Z := 3.
Definition PROPID_QTYKD : Z := 4.

(** After a [PyArg_ParseTuple] whose result is not tested has failed, the
    function goes on with uninitialised locals. *)
Definition unparsed {A} : M A := undef.

(** [kd->p[i].iOrder = i; kd->p[i].iMark = 1] for [i] from [0] to
    [nbodies - 1]. *)
Definition init_particles (nbodies : Z) : list PARTICLE :=
  (λ i, {| iOrder := i; iMark := 1 |}) <$> seqZ 0 nbodies.

(** [kdinit]. The particle array is [malloc]ed for [nActive] particles and
    the allocation asserted: a negative count fails the assertion, an
    allocation for no particle is taken to succeed. The error of a failed
    parse is the one [PyArg_ParseTuple] sets. *)
Definition kdinit (fuel : nat) (args : list PyObject) : M PyRet :=
  match PyArg_ParseTuple args "OOi" with
  | Some [AObj pos; AObj mass; AInt nBucket] =>
      kd ← kdInit nBucket;
      dim ← PyArray_DIM (Some pos) 0;
      let nbodies := int_of_intp dim in
      k ← get_kd kd;
      put_kd kd (set_pNumpyDen None (set_pNumpySmooth None
                  (set_pNumpyMass (Some mass) (set_pNumpyPos (Some pos)
                    (set_counts nbodies k)))));;
      Py_INCREF pos;;
      Py_INCREF mass;;
      if nbodies <? 0 then abort
      else
        k ← get_kd kd;
        put_kd kd (set_p (init_particles nbodies) k);;
        kdBuildTree fuel kd;;
        ret (Ok (PyCapsule kd))
  | _ => ret (Err PyExc_TypeError "kdinit: bad arguments")
  end.

(** [kdfree] *)
Definition kdfree (args : list PyObject) : M PyRet :=
  match PyArg_ParseTuple args "O" with
  | Some [AObj kdobj] =>
      kd ← of_option (PyCapsule_GetPointer kdobj);
      kdFinish kd;;
      k ← get_kd kd;
      Py_XDECREF (pNumpyPos k);;
      Py_XDECREF (pNumpyMass k);;
      Py_XDECREF (pNumpySmooth k);;
      Py_XDECREF (pNumpyDen k);;
      ret (Ok Py_None)
  | _ => unparsed
  end.

(** [nn_start]. ([nProcs] is passed to [smSmoothInitStep] uninitialised;
    the rewind does not depend on it.) *)
Definition nn_start (nProcs : Z) (args : list PyObject) : M PyRet :=
  match PyArg_ParseTuple args "Oi" with
  | Some [AObj kdobj; AInt nSmooth] =>
      kd ← of_option (PyCapsule_GetPointer kdobj);
      r ← smInit kd nSmooth;
      match r with
      | None => ret (Err PyExc_RuntimeError "Unable to create smoothing context")
      | Some smx =>
          smSmoothInitStep smx nProcs;;
          ret (Ok (PyCapsule smx))
      end
  | _ => unparsed
  end.

(** The loop of [nn_next] that fills [nnList] and [nnDist] from the scratch
    lists of the session, for [i] from [i] to [nCnt - 1] ([n] iterations). *)
Fixpoint nn_fill (n : nat) (i : Z) (s : SMX)
    (nnList nnDist : option (list (option PyObject)))
  : M (option (list (option PyObject)) * option (list (option PyObject))) :=
  match n with
  | O => ret (nnList, nnDist)
  | S n' =>
      l ← of_option nnList;
      d ← of_option nnDist;
      pj ← of_option (zlookup (pList s) i);
      fj ← of_option (zlookup (fList s) i);
      nn_fill n' (i + 1) s
        (Some (PyList_SetItem l i (Some (PyLong pj))))
        (Some (PyList_SetItem d i (Some (PyFloat fj))))
  end.

(** [nn_next] *)
Definition nn_next (args : list PyObject) : M PyRet :=
  match PyArg_ParseTuple args "OO" with
  | Some [AObj kdobj; AObj smxobj] =>
      smx ← of_option (PyCapsule_GetPointer smxobj);
      nCnt ← smSmoothStep smx 0;
      if negb (nCnt =? 0) then
        let nnList := PyList_New nCnt in
        let nnDist := PyList_New nCnt in
        retList ← of_option (PyList_New 4);
        '(nnList, nnDist) ← (s ← get_smx smx;
                             nn_fill (Z.to_nat nCnt) 0 s nnList nnDist);
        s ← get_smx smx;
        k ← get_kd (smx_kd s);
        let retList := PyList_SetItem retList 0 (Some (PyLong (pi s))) in
        q ← of_option (zlookup (p k) (pi s));
        hsm ← GET (pNumpySmooth k) (iOrder q);
        let retList := PyList_SetItem retList 1 (Some (PyFloat hsm)) in
        let retList := PyList_SetItem retList 2 (as_list nnList) in
        let retList := PyList_SetItem retList 3 (as_list nnDist) in
        ret (Ok (PyList retList))
      else ret (Ok Py_None)
  | _ => unparsed
  end.

(** [nn_stop] *)
Definition nn_stop (args : list PyObject) : M PyRet :=
  match PyArg_ParseTuple args "OO" with
  | Some [AObj kdobj; AObj smxobj] =>
      smx ← of_option (PyCapsule_GetPointer smxobj);
      smFinish smx;;
      ret (Ok Py_None)
  | _ => unparsed
  end.

(** [nn_rewind] *)
Definition nn_rewind (args : list PyObject) : M PyRet :=
  match PyArg_ParseTuple args "O" with
  | Some [AObj smxobj] =>
      smx ← of_option (PyCapsule_GetPointer smxobj);
      smSmoothInitStep smx 1;;
      ret (Ok (PyCapsule smx))
  | _ => unparsed
  end.

(** [checkArray]: [None] for the result 0, the error that was set for the
    result 1. *)
Definition checkArray (check : option PyObject) : M (option (PyExc * string)) :=
  match check with
  | None => ret (Some (PyExc_ValueError, "Unspecified array in kdtree"))
  | Some (PyArr a) =>
      arr ← get_array a;
      match descr arr with
      | None =>
          ret (Some (PyExc_TypeError,
                     "Incorrect numpy data type to kdtree - must match C double"))
      | Some d =>
          if negb (Ascii.eqb (kind d) "f") || negb (elsize d =? sizeof_double)
          then ret (Some (PyExc_TypeError,
                     "Incorrect numpy data type to kdtree - must match C double"))
          else ret None
      end
  | Some _ => undef
  end.

(** A field of the context that holds a bound buffer: what [existing]
    points to in [set_arrayref] and [get_arrayref]. *)
Inductive slot :=
| Smoothing
| Density
| Mass
| Quantity
| QuantitySmoothed.

Definition slot_get (e : slot) (k : KD) : option PyObject :=
  match e with
  | Smoothing => pNumpySmooth k
  | Density => pNumpyDen k
  | Mass => pNumpyMass k
  | Quantity => pNumpyQty k
  | QuantitySmoothed => pNumpyQtySmoothed k
  end.

Definition slot_set (e : slot) (v : option PyObject) (k : KD) : KD :=
  match e with
  | Smoothing => set_pNumpySmooth v k
  | Density => set_pNumpyDen v k
  | Mass => set_pNumpyMass v k
  | Quantity => set_pNumpyQty v k
  | QuantitySmoothed => set_pNumpyQtySmoothed v k
  end.

(** The [switch(arid)] of [set_arrayref] and [get_arrayref]; [None] is the
    [default] case. *)
Definition switch_arid (arid : Z) : option slot :=
  match arid with
  | 0 => Some Smoothing
  | 1 => Some Density
  | 2 => Some Mass
  | 3 => Some Quantity
  | 4 => Some QuantitySmoothed
  | _ => None
  end.

Definition raise (e : PyExc * string) : M PyRet := ret (Err e.1 e.2).

(** [set_arrayref] *)
Definition set_arrayref (args : list PyObject) : M PyRet :=
  match PyArg_ParseTuple args "OiO" with
  | Some [AObj kdobj; AInt arid; AObj arobj] =>
      match PyCapsule_GetPointer kdobj with
      | None => ret capsule_error
      | Some kd =>
          c ← checkArray (Some arobj);
          match c with
          | Some e => raise e
          | None =>
              match switch_arid arid with
              | None =>
                  ret (Err PyExc_ValueError "Unknown array to set for KD tree")
              | Some existing =>
                  c ← checkArray (Some arobj);
                  match c with
                  | Some e => raise e
                  | None =>
                      k ← get_kd kd;
                      Py_XDECREF (slot_get existing k);;
                      put_kd kd (slot_set existing (Some arobj) k);;
                      Py_INCREF arobj;;
                      ret (Ok Py_None)
                  end
              end
          end
      end
  | _ => unparsed
  end.

(** [get_arrayref] *)
Definition get_arrayref (args : list PyObject) : M PyRet :=
  match PyArg_ParseTuple args "Oi" with
  | Some [AObj kdobj; AInt arid] =>
      match PyCapsule_GetPointer kdobj with
      | None => ret capsule_error
      | Some kd =>
          match switch_arid arid with
          | None =>
              ret (Err PyExc_ValueError "Unknown array to get from KD tree")
          | Some existing =>
              k ← get_kd kd;
              match slot_get existing k with
              | None => ret (Ok Py_None)
              | Some o => ret (Ok o)
              end
          end
      end
  | _ => unparsed
  end.

(** [domain_decomposition] *)
Definition domain_decomposition (args : list PyObject) : M PyRet :=
  match PyArg_ParseTuple args "Oi" with
  | Some [AObj smxobj; AInt nproc] =>
      match PyCapsule_GetPointer smxobj with
      | None => ret capsule_error
      | Some kd =>
          k ← get_kd kd;
          c ← checkArray (pNumpySmooth k);
          match c with
          | Some e => raise e
          | None =>
              if nproc <? 0 then
                ret (Err PyExc_ValueError "Invalid number of processors")
              else
                smDomainDecomposition kd nproc;;
                ret (Ok Py_None)
          end
      end
  | _ => unparsed
  end.

(** [if (checkArray(a)) return NULL;] for each array of the list in turn:
    the error of the first array that fails. *)
Fixpoint check_arrays (l : list (option PyObject))
  : M (option (PyExc * string)) :=
  match l with
  | [] => ret None
  | a :: l' =>
      c ← checkArray a;
      match c with
      | Some e => ret (Some e)
      | None => check_arrays l'
      end
  end.

(** Modelled from the spec: the macro [GETSMOOTH] of kd.h, the value of the
    bound smoothing field for the particle at physical index [i]. *)
Definition GETSMOOTH (k : KD) (i : Z) : M real :=
  q ← of_option (zlookup (p k) i);
  GET (pNumpySmooth k) (iOrder q).

(** The [for] loop of the [PROPID_HSM] case, [n] iterations left. *)
Fixpoint populate_hsm (n : nat) (smx_local : positive) (procid : Z) : M unit :=
  match n with
  | O => ret tt
  | S n' =>
      nCnt ← smSmoothStep smx_local procid;
      if nCnt =? -1 then ret tt
      else populate_hsm n' smx_local procid
  end.

(** The body of the [while] loop of the [PROPID_RHO] case for the claimed
    particle [i]; its result is the next claimed particle. *)
Definition populate_rho_body (kd smx_local : positive) (i : Z) : M Z :=
  k ← get_kd kd;
  q ← of_option (zlookup (p k) i);
  ri ← mapM (λ j, x ← GET2 (pNumpyPos k) (iOrder q) j; ret (fcast x))
            [0; 1; 2];
  h ← GETSMOOTH k i;
  let hsm := fcast h in
  nCnt ← smBallGather smx_local (rmul (rmul (rofZ 4) hsm) hsm) ri;
  s ← get_smx smx_local;
  smDensity smx_local i nCnt (pList s) (fList s);;
  smGetNext smx_local.

(** [while (i < nbodies)] of the [PROPID_RHO] case. *)
Fixpoint populate_rho (fuel : nat) (kd smx_local : positive) (nbodies i : Z)
  : M unit :=
  if i <? nbodies then
    match fuel with
    | O => out_of_fuel
    | S fuel' =>
        i' ← populate_rho_body kd smx_local i;
        populate_rho fuel' kd smx_local nbodies i'
    end
  else ret tt.

(** [populate] *)
Definition populate (fuel : nat) (args : list PyObject) : M PyRet :=
  match PyArg_ParseTuple args "OOii" with
  | Some [AObj kdobj; AObj smxobj; AInt propid; AInt procid] =>
      kd ← of_option (PyCapsule_GetPointer kdobj);
      k ← get_kd kd;
      nbodies ← PyArray_DIM (pNumpyPos k) 0;
      c ← check_arrays
            ([pNumpySmooth k]
             ++ (if PROPID_HSM <? propid
                 then [pNumpyDen k; pNumpyMass k; pNumpySmooth k] else [])
             ++ (if PROPID_RHO <? propid
                 then [pNumpyQty k; pNumpyQtySmoothed k] else []));
      match c with
      | Some e => raise e
      | None =>
          smx_global ← of_option (PyCapsule_GetPointer smxobj);
          smx_local ← smInitThreadLocalCopy smx_global;
          s ← get_smx smx_local;
          put_smx smx_local (set_pi 0 (set_warnings false s));;
          (if propid =? PROPID_HSM then
             populate_hsm (Z.to_nat nbodies) smx_local procid
           else if propid =? PROPID_RHO then
             i ← smGetNext smx_local;
             populate_rho fuel kd smx_local nbodies i
           else ret tt);;
          smFinishThreadLocalCopy smx_local;;
          ret (Ok Py_None)
      end
  | _ => unparsed
  end.

(** [kdmain_methods]: the functions of the module by name. *)
Definition kdmain_methods (fuel : nat) (nProcs : Z)
  : list (string * (list PyObject → M PyRet)) :=
  [ ("init", kdinit fuel);
    ("free", kdfree);
    ("nn_start", nn_start nProcs);
    ("nn_next", nn_next);
    ("nn_stop", nn_stop);
    ("nn_rewind", nn_rewind);
    ("set_arrayref", set_arrayref);
    ("get_arrayref", set_arrayref);
    ("domain_decomposition", domain_decomposition);
    ("populate", populate fuel) ].

Fixpoint find_method (name : string)
    (table : list (string * (list PyObject → M PyRet)))
  : option (list PyObject → M PyRet) :=
  match table with
  | [] => None
  | (n, f) :: table' => if String.eqb name n then Some f else find_method name table'
  end.

(** A call [kdmain.name(args)] from Python; [None] when the module has no
    such method. *)
Definition call_method (fuel : nat) (nProcs : Z) (name : string)
    (args : list PyObject) (st : State) : option (outcome (PyRet * State)) :=
  (λ f, f args st) <$> find_method name (kdmain_methods fuel nProcs).

(** ** Vocabulary of the statements *)

(** The element type of the array is C double. *)
Definition is_double (arr : PyArrayObject) : bool :=
  match descr arr with
  | None => false
  | Some d => Ascii.eqb (kind d) "f" && (elsize d =? sizeof_double)
  end.

(** The binding holds a double buffer of the host. *)
Definition bound_double (st : State) (o : option PyObject) : bool :=
  match o with
  | Some (PyArr a) => from_option is_double false (arrays st !! a)
  | _ => false
  end.

(** The binding is absent or an array of the host: what [checkArray] can
    be called on. *)
Definition checkable (st : State) (o : option PyObject) : Prop :=
  match o with
  | None => True
  | Some (PyArr a) => is_Some (arrays st !! a)
  | Some _ => False
  end.

(** What the specification asks of a buffer to be bound: its element type
    is double and its element count equals the particle count. *)
Definition spec_bindable (k : KD) (arr : PyArrayObject) : bool :=
  is_double arr && bool_decide (dims arr = [nParticles k]).

(** The reference counts of the host's arrays before and after a call. *)
Definition refcnt (st : State) (a : positive) : option Z :=
  ob_refcnt <$> arrays st !! a.

(** Whether a pointer of the context refers to the array [a]. *)
Definition refs_to (a : positive) (o : option PyObject) : Z :=
  match o with
  | Some (PyArr b) => if decide (a = b) then 1 else 0
  | _ => 0
  end.

(** The number of references to the array [a] that [kdfree] gives back. *)
Definition released (k : KD) (a : positive) : Z :=
  refs_to a (pNumpyPos k) + refs_to a (pNumpyMass k)
  + refs_to a (pNumpySmooth k) + refs_to a (pNumpyDen k).


(** The mass of the particle at physical index [j]. *)
Definition neighbour_mass (k : KD) (mass : PyArrayObject) (j : Z) : real :=
  default r0 (q ← zlookup (p k) j; zlookup (data mass) (iOrder q)).

(** The kernel-weighted sum of the masses of the neighbours [nbrs], given
    with their squared distances, for the smoothing length [h]. *)
Definition kernel_sum (k : KD) (mass : PyArrayObject) (h : real)
    (nbrs : list (Z * real)) : real :=
  rsum ((λ c, rmul (kernelW h c.2) (neighbour_mass k mass c.1)) <$> nbrs).

(** Every particle of the index has its [width] values in the buffer. *)
Definition readable (st : State) (k : KD) (o : option PyObject) (width : Z)
  : Prop :=
  ∃ a arr,
    o = Some (PyArr a) ∧ arrays st !! a = Some arr
    ∧ ∀ q, q ∈ p k →
        0 ≤ iOrder q ∧ (iOrder q + 1) * width ≤ Z.of_nat (length (data arr)).

(** The state in which the density pass runs: the index is there, the
    session [l] is bound to it and has a claim cursor, and positions,
    smoothing lengths, masses and densities can be read for every
    particle. *)
Definition density_ready (st : State) (kd l : positive) (k : KD) : Prop :=
  kds st !! kd = Some k
  ∧ (∃ s, smxs st !! l = Some s ∧ smx_kd s = kd
          ∧ is_Some (smxs st !! cursor_owner l s))
  ∧ readable st k (pNumpyPos k) 3
  ∧ readable st k (pNumpySmooth k) 1
  ∧ readable st k (pNumpyMass k) 1
  ∧ readable st k (pNumpyDen k) 1.

(** The claim cursor that the session [l] draws from. *)
Definition cursor (st : State) (l : positive) : option Z :=
  s ← smxs st !! l;
  g ← smxs st !! cursor_owner l s;
  Some (pNext g).

Definition is_err (r : PyRet) : Prop :=
  match r with
  | Err _ _ => True
  | Ok _ => False
  end.

(** The error that [checkArray] sets for a binding that is not a buffer of
    doubles. *)
Definition checkArray_error (ptr : option PyObject) : PyExc * string :=
  match ptr with
  | None => (PyExc_ValueError, "Unspecified array in kdtree"%string)
  | Some _ =>
      (PyExc_TypeError,
       "Incorrect numpy data type to kdtree - must match C double"%string)
  end.

(** The bindings that [populate] checks for a property id, each once, in
    the order of the first check. *)
Definition populate_required (propid : Z) (k : KD) : list (option PyObject) :=
  pNumpySmooth k
  :: (if PROPID_HSM <? propid then [pNumpyDen k; pNumpyMass k] else [])
  ++ (if PROPID_RHO <? propid then [pNumpyQty k; pNumpyQtySmoothed k] else []).

(** The slots whose reference [kdfree] does not give back. *)
Definition kept_by_kdfree (e : slot) : bool :=
  match e with
  | Quantity | QuantitySmoothed => true
  | _ => false
  end.

(** The call has handed an error back to the interpreter. *)
Definition raises (o : outcome (PyRet * State)) : Prop :=
  match o with
  | Return (Err _ _, _) => True
  | _ => False
  end.

(** The handle is a capsule. *)
Definition is_capsule (o : PyObject) : bool :=
  match o with
  | PyCapsule _ => true
  | _ => false
  end.

End Model.

(** ** A host with five particles on a line

    The statements below are run on this host: the positions (0,0,0),
    (4,0,0), (1,0,0), (3,0,0), (2,0,0) with unit masses, over the integers. *)

Section Examples.

#[local] Existing Instance ZNumeric.

Definition double_descr : PyArray_Descr := {| kind := "f"; elsize := 8 |}.
Definition float_descr : PyArray_Descr := {| kind := "f"; elsize := 4 |}.

Definition host_array (d : PyArray_Descr) (shape : list Z) (elems : list Z)
  : PyArrayObject :=
  {| ob_refcnt := 1; descr := Some d; dims := shape; data := elems |}.

Definition ex_pos : PyArrayObject :=
  host_array double_descr [5; 3] [0; 0; 0; 4; 0; 0; 1; 0; 0; 3; 0; 0; 2; 0; 0].
Definition ex_mass : PyArrayObject := host_array double_descr [5] [1; 1; 1; 1; 1].
Definition ex_zeros : PyArrayObject := host_array double_descr [5] [0; 0; 0; 0; 0].
Definition ex_floats : PyArrayObject := host_array float_descr [5] [0; 0; 0; 0; 0].
Definition ex_long : PyArrayObject :=
  host_array double_descr [7] [0; 0; 0; 0; 0; 0; 0].
Definition ex_no_rows : PyArrayObject := host_array double_descr [0; 3] [].

(** The arrays of the host: positions (1), masses (2), two buffers for
    smoothing lengths (3) and densities (4), a buffer of C floats (5), a
    buffer of seven doubles (6) and a position buffer without rows (7). *)
Definition ex_host : State :=
  {| arrays := list_to_map
       [(1%positive, ex_pos); (2%positive, ex_mass); (3%positive, ex_zeros);
        (4%positive, ex_zeros); (5%positive, ex_floats);
        (6%positive, ex_long); (7%positive, ex_no_rows)];
     kds := ∅; smxs := ∅; next := 10%positive; calls := [] |}.

Definition state_after {A} (o : outcome (A * State)) : State :=
  match o with
  | Return (_, st) => st
  | _ => ex_host
  end.

(** What a call returned, if it did. *)
Definition returned {A} (o : outcome (A * State)) : option A :=
  match o with
  | Return (a, _) => Some a
  | _ => None
  end.

(** The index over the five particles, with bucket capacity 2: handle 10. *)
Definition ex_built : State :=
  state_after (kdinit 10 [PyArr 1; PyArr 2; PyLong 2] ex_host).

(** ... with the smoothing and density buffers bound ... *)
Definition ex_bound : State :=
  state_after (set_arrayref [PyCapsule 10; PyLong 1; PyArr 4]
    (state_after (set_arrayref [PyCapsule 10; PyLong 0; PyArr 3] ex_built))).

(** ... a session for 2 neighbours, handle 11 ... *)
Definition ex_session : State :=
  state_after (nn_start 0 [PyCapsule 10; PyLong 2] ex_bound).

(** ... after the smoothing-length pass and a rewind ... *)
Definition ex_smoothed : State :=
  state_after (nn_rewind [PyCapsule 11]
    (state_after (populate 10 [PyCapsule 10; PyCapsule 11; PyLong PROPID_HSM;
                               PyLong 0] ex_session))).

(** ... and with a thread-local copy of the session, 12, as at the start of
    the density pass. *)
Definition ex_local : State :=
  state_after (smInitThreadLocalCopy 11 ex_smoothed).

(** The session after five steps of [nn_next]: no particle is left. *)
Definition ex_stepped : State :=
  Nat.iter 5 (λ st, state_after (nn_next [PyCapsule 10; PyCapsule 11] st))
    ex_smoothed.


(** The context of the index as it is built ... *)
Definition ex_k0 : KD :=
  Eval vm_compute in default (empty_context 0) (kds ex_built !! 10%positive).

(** ... and with the buffers bound; the session when no particle is left. *)
Definition ex_k : KD :=
  Eval vm_compute in default (empty_context 0) (kds ex_local !! 10%positive).
Definition ex_s : SMX :=
  Eval vm_compute in default (new_session 10 0) (smxs ex_stepped !! 11%positive).

Definition ex_pos' : PyArrayObject :=
  Eval vm_compute in default ex_pos (arrays ex_local !! 1%positive).
Definition ex_smooth' : PyArrayObject :=
  Eval vm_compute in default ex_zeros (arrays ex_local !! 3%positive).

(** The index with the smoothing and density buffers bound, a session, and
    the buffer of seven doubles bound to both quantity slots. *)
Definition ex_all_bound : State :=
  state_after (set_arrayref [PyCapsule 10; PyLong 4; PyArr 6]
    (state_after (set_arrayref [PyCapsule 10; PyLong 3; PyArr 6] ex_session))).

Definition ex_k_all : KD :=
  Eval vm_compute in default (empty_context 0) (kds ex_all_bound !! 10%positive).

(** The session after the first step of the second pass. *)
Definition ex_step1 : State :=
  state_after (smSmoothStep 11 0 ex_smoothed).

Definition ex_s1 : SMX :=
  Eval vm_compute in default (new_session 10 0) (smxs ex_step1 !! 11%positive).

(** A host with a position buffer of 2^32 + 2 rows (array 8), of which the
    first two are spelled out. *)
Definition ex_wide : PyArrayObject :=
  host_array double_descr [2 ^ 32 + 2; 3] [0; 0; 0; 1; 0; 0].

Definition ex_host_wide : State :=
  set_arrays (<[8%positive := ex_wide]> (arrays ex_host)) ex_host.


End Examples.

(** * Properties *)

Section Properties.

Context {num : Numeric}.

Implicit Types (st : State) (k : KD) (arr : PyArrayObject) (o : PyObject).

Ltac munfold :=
  unfold mbind, M_bind, mret, M_ret, bind, ret, raise, of_option, undef,
    unparsed, get_kd, put_kd, get_smx, put_smx, get_array, put_array in *.

(** ** Running the monad *)

Lemma run_bind {A B} (m : M A) (f : A → M B) st x st1 :
  m st = Return (x, st1) → (m ≫= f) st = f x st1.
Proof. unfold mbind, M_bind, bind. by intros ->. Qed.

Lemma run_ret {A} (x : A) st : mret (M := M) x st = Return (x, st).
Proof. reflexivity. Qed.

Lemma get_kd_run st a k : kds st !! a = Some k → get_kd a st = Return (k, st).
Proof. unfold get_kd. by intros ->. Qed.

Lemma get_smx_run st a s : smxs st !! a = Some s → get_smx a st = Return (s, st).
Proof. unfold get_smx. by intros ->. Qed.

Lemma get_array_run st a arr :
  arrays st !! a = Some arr → get_array a st = Return (arr, st).
Proof. unfold get_array. by intros ->. Qed.

Lemma of_option_run {A} (x : A) st : of_option (Some x) st = Return (x, st).
Proof. reflexivity. Qed.

(** One step of a computation: run the first action with [tac], go on with
    the rest. *)
Tactic Notation "mstep" tactic3(tac) := erewrite run_bind; [|tac].

(** ** checkArray *)

Lemma checkArray_NULL st :
  checkArray None st
  = Return (Some (PyExc_ValueError, "Unspecified array in kdtree"%string), st).
Proof. reflexivity. Qed.

Lemma checkArray_array st a arr :
  arrays st !! a = Some arr →
  checkArray (Some (PyArr a)) st
  = Return (if is_double arr then None
            else Some (PyExc_TypeError,
                       "Incorrect numpy data type to kdtree - must match C double"%string),
            st).
Proof.
  intros Ha. unfold checkArray, is_double. munfold. rewrite Ha.
  destruct (descr arr) as [d|]; [|reflexivity].
  destruct (Ascii.eqb (kind d) "f"), (elsize d =? sizeof_double); reflexivity.
Qed.

(** [checkArray] changes nothing, and passes exactly the double buffers. *)
Lemma checkArray_spec st b :
  checkable st b →
  ∃ c, checkArray b st = Return (c, st) ∧ (c = None ↔ bound_double st b = true).
Proof.
  unfold checkable, bound_double. destruct b as [[]|]; try done.
  - intros [arr Ha]. rewrite (checkArray_array _ _ _ Ha), Ha. simpl.
    destruct (is_double arr); eexists; split; try reflexivity; split; done.
  - intros _. eexists. split; [reflexivity|]. split; done.
Qed.

Lemma switch_arid_Some arid e :
  switch_arid arid = Some e → 0 ≤ arid ≤ 4.
Proof.
  unfold switch_arid. destruct arid as [|[[[]|[]|]|[[]|[]|]|]|]; try done; lia.
Qed.


(** ** Argument parsing *)

Lemma parse_O o : PyArg_ParseTuple [o] "O" = Some [AObj o].
Proof. reflexivity. Qed.

Lemma parse_OO o1 o2 : PyArg_ParseTuple [o1; o2] "OO" = Some [AObj o1; AObj o2].
Proof. reflexivity. Qed.

Lemma parse_Oi o z :
  in_int z = true → PyArg_ParseTuple [o; PyLong z] "Oi" = Some [AObj o; AInt z].
Proof. intros H. cbn. rewrite H. reflexivity. Qed.

Lemma parse_OiO o1 z o2 :
  in_int z = true →
  PyArg_ParseTuple [o1; PyLong z; o2] "OiO" = Some [AObj o1; AInt z; AObj o2].
Proof. intros H. cbn. rewrite H. reflexivity. Qed.

Lemma parse_OOi o1 o2 z :
  in_int z = true →
  PyArg_ParseTuple [o1; o2; PyLong z] "OOi" = Some [AObj o1; AObj o2; AInt z].
Proof. intros H. cbn. rewrite H. reflexivity. Qed.

Lemma parse_OOii o1 o2 z1 z2 :
  in_int z1 = true → in_int z2 = true →
  PyArg_ParseTuple [o1; o2; PyLong z1; PyLong z2] "OOii"
  = Some [AObj o1; AObj o2; AInt z1; AInt z2].
Proof. intros H1 H2. cbn. rewrite H1, H2. reflexivity. Qed.

(** ** set_arrayref and get_arrayref *)


Lemma in_int_slot arid e : switch_arid arid = Some e → in_int arid = true.
Proof.
  intros H%switch_arid_Some. unfold in_int, INT_MIN, INT_MAX.
  apply andb_true_intro. split; apply Z.leb_le; lia.
Qed.

Lemma slot_get_set e v k : slot_get e (slot_set e v k) = v.
Proof. by destruct e. Qed.

Lemma slot_get_set_ne e e' v k :
  e' ≠ e → slot_get e' (slot_set e v k) = slot_get e' k.
Proof. by destruct e, e'. Qed.

(** C3 (amended). For every slot, [set_arrayref] accepts a buffer and
    replaces the binding of that slot (and of no other slot) exactly when
    the element type of the buffer is double, whatever its element count; a
    buffer of another element type is rejected with a TypeError and the
    state, so every binding, is left unchanged. *)
Theorem set_arrayref_accepts_double st kd k arid e b arr :
  kds st !! kd = Some k →
  switch_arid arid = Some e →
  arrays st !! b = Some arr →
  if is_double arr then
    ∃ st' k',
      set_arrayref [PyCapsule kd; PyLong arid; PyArr b] st
      = Return (Ok Py_None, st')
      ∧ kds st' !! kd = Some k'
      ∧ slot_get e k' = Some (PyArr b)
      ∧ ∀ e', e' ≠ e → slot_get e' k' = slot_get e' k
  else
    ∃ msg,
      set_arrayref [PyCapsule kd; PyLong arid; PyArr b] st
      = Return (Err PyExc_TypeError msg, st).
Proof.
  intros Hk He Hb. unfold set_arrayref.
  rewrite parse_OiO by eauto using in_int_slot. cbn [PyCapsule_GetPointer].
  unfold mbind, M_bind, bind. rewrite (checkArray_array _ _ _ Hb).
  destruct (is_double arr) eqn:Hd; [|by eexists].
  rewrite He, (checkArray_array _ _ _ Hb), Hd.
  unfold get_kd. rewrite Hk.
  destruct (Py_XDECREF (slot_get e k) st) as [[[] st1]| | |] eqn:Hdec.
  2-4: by destruct (slot_get e k) as [[]|].
  assert (kds st1 = kds st) as Hkds.
  { destruct (slot_get e k) as [[]|]; simpl in Hdec; by inversion Hdec. }
  eexists _, (slot_set e (Some (PyArr b)) k). split; [reflexivity|].
  simpl. rewrite lookup_insert_eq.
  split; [done|]. split; [apply slot_get_set|].
  intros e' Hne. by apply slot_get_set_ne.
Qed.

(** The C function [get_arrayref] answers the binding of the slot, [None]
    for an unbound slot, and changes nothing. *)
Lemma get_arrayref_spec st kd k arid e :
  kds st !! kd = Some k →
  switch_arid arid = Some e →
  get_arrayref [PyCapsule kd; PyLong arid] st
  = Return (Ok (default Py_None (slot_get e k)), st).
Proof.
  intros Hk He. unfold get_arrayref.
  rewrite parse_Oi by eauto using in_int_slot. simpl. rewrite He.
  unfold mbind, M_bind, bind, get_kd. rewrite Hk.
  by destruct (slot_get e k).
Qed.

(** [get_arrayref] after a successful [set_arrayref] answers the buffer. *)
Lemma get_arrayref_after_set st st' kd arid e b :
  switch_arid arid = Some e →
  set_arrayref [PyCapsule kd; PyLong arid; PyArr b] st = Return (Ok Py_None, st') →
  get_arrayref [PyCapsule kd; PyLong arid] st' = Return (Ok (PyArr b), st').
Proof.
  intros He. unfold set_arrayref.
  rewrite parse_OiO by eauto using in_int_slot. cbn [PyCapsule_GetPointer].
  unfold mbind, M_bind, bind.
  destruct (checkArray (Some (PyArr b)) st) as [[[c|] st0]| | |] eqn:Hc; try done.
  rewrite He.
  destruct (checkArray (Some (PyArr b)) st0) as [[[c|] st1]| | |]; try done.
  unfold get_kd. destruct (kds st1 !! kd) as [k|]; [|done].
  destruct (Py_XDECREF (slot_get e k) st1) as [[[] st2]| | |] eqn:Hdec; try done.
  intros [= <-].
  erewrite get_arrayref_spec; [|simpl; apply lookup_insert_eq|done].
  by rewrite slot_get_set.
Qed.

(** Whatever its arguments are, [set_arrayref] hands back [None] or an
    error, never a buffer. *)
Lemma set_arrayref_none_or_error args st r st' :
  set_arrayref args st = Return (r, st') → r = Ok Py_None ∨ is_err r.
Proof.
  unfold set_arrayref, capsule_error, raise.
  unfold mbind, M_bind, bind, ret, unparsed, undef.
  intros H. repeat (case_match; try done); simplify_eq; simpl; auto.
Qed.

(** C4. The module binds the name [get_arrayref] to the C function
    [set_arrayref]: a call [get_arrayref(handle, slot)] from Python runs
    [set_arrayref], whose parse of three arguments fails on the two it is
    given, and goes on with uninitialised locals; the call never answers the
    bound buffer. *)
Theorem get_arrayref_method_runs_set_arrayref fuel nProcs :
  find_method "get_arrayref" (kdmain_methods fuel nProcs) = Some set_arrayref
  ∧ ∀ kdobj arid st,
      call_method fuel nProcs "get_arrayref" [kdobj; PyLong arid] st
      = Some Undef.
Proof.
  split; [reflexivity|]. intros kdobj arid st.
  unfold call_method. cbn. unfold set_arrayref. cbn.
  by destruct (in_int arid).
Qed.

(** ** domain_decomposition *)

(** C7. On a valid handle [domain_decomposition] raises an error exactly
    when the number of workers is negative or the smoothing-length binding
    is absent or not a double buffer; a failing call leaves the state
    unchanged; zero workers is accepted, and is a no-op. *)
Theorem domain_decomposition_validates st kd k nproc :
  in_int nproc = true →
  kds st !! kd = Some k →
  checkable st (pNumpySmooth k) →
  ∃ r st',
    domain_decomposition [PyCapsule kd; PyLong nproc] st = Return (r, st')
    ∧ (is_err r ↔ nproc < 0 ∨ bound_double st (pNumpySmooth k) = false)
    ∧ (is_err r → st' = st)
    ∧ (nproc = 0 → bound_double st (pNumpySmooth k) = true →
       r = Ok Py_None ∧ st' = st).
Proof.
  intros Hint Hk Hchk. unfold domain_decomposition.
  rewrite parse_Oi by done. cbn [PyCapsule_GetPointer].
  unfold mbind, M_bind, bind, get_kd. rewrite Hk.
  destruct (checkArray_spec _ _ Hchk) as (c & -> & Hc).
  destruct c as [[e msg]|].
  - exists (Err e msg), st. split; [done|].
    assert (bound_double st (pNumpySmooth k) = false) as Hb.
    { destruct (bound_double st (pNumpySmooth k)); [|done].
      by destruct Hc as [_ Hc]; specialize (Hc eq_refl). }
    split; [by split; [right|]|]. split; [done|]. intros _ Hb'. congruence.
  - assert (bound_double st (pNumpySmooth k) = true) as Hb by by apply Hc.
    destruct (nproc <? 0) eqn:Hneg.
    + apply Z.ltb_lt in Hneg. eexists _, st. split; [reflexivity|].
      split; [by split; [left|]|]. split; [done|]. lia.
    + apply Z.ltb_ge in Hneg. unfold smDomainDecomposition.
      unfold mbind, M_bind, bind, get_kd. rewrite Hk.
      destruct (nproc =? 0) eqn:Hz.
      * exists (Ok Py_None), st. split; [done|]. simpl.
        split; [split; [done|intros [?|?]; [lia|congruence]]|]. done.
      * apply Z.eqb_neq in Hz. eexists (Ok Py_None), _. split; [done|]. simpl.
        split; [split; [done|intros [?|?]; [lia|congruence]]|].
        split; [done|]. intros; lia.
Qed.

(** ** populate: validation before the pass *)

Lemma check_arrays_spec st l :
  Forall (checkable st) l →
  ∃ c, check_arrays l st = Return (c, st)
       ∧ (c = None ↔ forallb (bound_double st) l = true).
Proof.
  induction 1 as [|b l Hb _ IH]; simpl.
  - by exists None.
  - unfold mbind, M_bind, bind.
    destruct (checkArray_spec _ _ Hb) as (c & -> & Hc).
    destruct c as [e|].
    + exists (Some e). split; [done|]. split; [done|].
      intros [H1 _]%andb_prop. apply Hc in H1. done.
    + destruct IH as (c' & -> & Hc'). exists c'. split; [done|].
      rewrite Hc'. destruct Hc as [Hc _]. rewrite Hc by done. done.
Qed.

(** C6. [populate] with the Density property, when one of the
    smoothing-length, density and mass bindings is absent or not a double
    buffer, fails and leaves the state as it was: no call into the
    neighbour search is made and no buffer is written. *)
Theorem populate_density_gate fuel st kd k smxobj procid pa parr dim :
  in_int procid = true →
  kds st !! kd = Some k →
  pNumpyPos k = Some (PyArr pa) →
  arrays st !! pa = Some parr →
  dims parr !! 0%nat = Some dim →
  checkable st (pNumpySmooth k) →
  checkable st (pNumpyDen k) →
  checkable st (pNumpyMass k) →
  bound_double st (pNumpySmooth k) && bound_double st (pNumpyDen k)
    && bound_double st (pNumpyMass k) = false →
  ∃ e msg,
    populate fuel [PyCapsule kd; smxobj; PyLong PROPID_RHO; PyLong procid] st
    = Return (Err e msg, st).
Proof.
  intros Hint Hk Hpos Hpa Hdim Hs Hd Hm Hbad. unfold populate.
  rewrite parse_OOii by done. cbn [PyCapsule_GetPointer of_option].
  unfold mbind at 1, M_bind at 1, bind at 1. cbn [ret].
  unfold mbind at 1, M_bind at 1, bind at 1, get_kd at 1. rewrite Hk.
  unfold mbind at 1, M_bind at 1, bind at 1.
  rewrite Hpos. unfold PyArray_DIM, mbind at 1, M_bind at 1, bind at 1, get_array.
  rewrite Hpa. unfold of_option. rewrite Hdim. cbn [ret].
  unfold mbind at 1, M_bind at 1, bind at 1.
  change (PROPID_HSM <? PROPID_RHO) with true.
  change (PROPID_RHO <? PROPID_RHO) with false.
  cbn [app].
  edestruct (check_arrays_spec st) as (c & -> & Hc).
  { repeat constructor; [exact Hs|exact Hd|exact Hm|exact Hs]. }
  destruct c as [[e msg]|]; [by exists e, msg|].
  destruct Hc as [Hc _]. specialize (Hc eq_refl). simpl in Hc.
  destruct (bound_double st (pNumpySmooth k)), (bound_double st (pNumpyDen k)),
    (bound_double st (pNumpyMass k)); done.
Qed.

(** ** kdfree *)

Lemma refcnt_XDECREF st (ptr : option PyObject) :
  ∃ st', Py_XDECREF ptr st = Return (tt, st')
         ∧ kds st' = kds st ∧ smxs st' = smxs st ∧ calls st' = calls st
         ∧ next st' = next st
         ∧ ∀ a, refcnt st' a = (λ z, z - refs_to a ptr) <$> refcnt st a.
Proof.
  unfold refcnt, refs_to.
  destruct ptr as [[| | | |b|]|]; simpl;
    try (eexists; repeat (split; [reflexivity|]); intros a;
         destruct (arrays st !! a); simpl; f_equal; lia).
  eexists. repeat (split; [reflexivity|]). intros a. simpl.
  rewrite lookup_alter. destruct (decide (a = b)) as [->|Hne].
  - rewrite decide_True by done.
    destruct (arrays st !! b); simpl; f_equal.
  - rewrite decide_False by done.
    destruct (arrays st !! a); simpl; f_equal; lia.
Qed.

(** What one call of [kdfree] does. *)
Lemma kdfree_spec st kd k :
  kds st !! kd = Some k →
  ∃ st',
    kdfree [PyCapsule kd] st = Return (Ok Py_None, st')
    ∧ kds st' !! kd = Some (set_kdNodes None (set_p [] k))
    ∧ ∀ a, refcnt st' a = (λ z, z - released k a) <$> refcnt st a.
Proof.
  intros Hk. unfold kdfree. rewrite parse_O. cbn [PyCapsule_GetPointer of_option].
  unfold kdFinish, mbind, M_bind, bind, ret, get_kd, put_kd. rewrite Hk.
  cbn [kds set_kds]. rewrite lookup_insert_eq.
  set (st0 := set_kds _ st). set (k0 := set_kdNodes None (set_p [] k)).
  destruct (refcnt_XDECREF st0 (pNumpyPos k0)) as (st1 & -> & Hk1 & _ & _ & _ & H1).
  destruct (refcnt_XDECREF st1 (pNumpyMass k0)) as (st2 & -> & Hk2 & _ & _ & _ & H2).
  destruct (refcnt_XDECREF st2 (pNumpySmooth k0)) as (st3 & -> & Hk3 & _ & _ & _ & H3).
  destruct (refcnt_XDECREF st3 (pNumpyDen k0)) as (st4 & -> & Hk4 & _ & _ & _ & H4).
  exists st4. split; [done|]. split.
  - rewrite Hk4, Hk3, Hk2, Hk1. subst st0. simpl. apply lookup_insert_eq.
  - intros a. rewrite H4, H3, H2, H1. unfold released. subst k0 st0.
    unfold refcnt. simpl.
    destruct (arrays st !! a); simpl; f_equal; lia.
Qed.


(** ** kdinit *)

Lemma insert_by_perm {A} (leb : A → A → bool) x l :
  insert_by leb x l ≡ₚ x :: l.
Proof.
  induction l as [|y l IH]; simpl; [done|].
  destruct (leb x y); [done|]. rewrite IH. apply Permutation_swap.
Qed.

Lemma sort_by_perm {A} (leb : A → A → bool) l : sort_by leb l ≡ₚ l.
Proof.
  induction l as [|x l IH]; simpl; [done|].
  by rewrite insert_by_perm, IH.
Qed.

(** The build keeps every particle: the buckets of the tree, read from left
    to right, are a permutation of the particles it was built from. *)
Lemma build_node_perm fuel pos nb ps t :
  build_node fuel pos nb ps = Some t → buckets t ≡ₚ ps.
Proof.
  revert ps t. induction fuel as [|fuel IH]; intros ps t; simpl; [done|].
  destruct (Z.of_nat (length ps) <=? nb); [by intros [= <-]|].
  destruct (build_node fuel pos nb (take _ _)) as [lo|] eqn:Hlo; [|done].
  destruct (build_node fuel pos nb (drop _ _)) as [hi|] eqn:Hhi; [|done].
  intros [= <-]. simpl.
  rewrite (IH _ _ Hlo), (IH _ _ Hhi), take_drop. apply sort_by_perm.
Qed.

(** With a bucket capacity of at least 1 the build ends: a fuel above the
    number of particles is enough. *)
Lemma build_node_total fuel pos nb ps :
  1 ≤ nb → (length ps < fuel)%nat → is_Some (build_node fuel pos nb ps).
Proof.
  intros Hnb. revert ps. induction fuel as [|fuel IH]; intros ps Hlen; [lia|].
  cbn [build_node].
  destruct (Z.of_nat (length ps) <=? nb) eqn:Hleaf; [done|].
  apply Z.leb_gt in Hleaf.
  set (sorted := sort_by _ ps).
  assert (length sorted = length ps) as Hs
    by (apply Permutation_length, sort_by_perm).
  assert (2 ≤ length ps)%nat as H2 by lia.
  assert (1 ≤ length ps / 2 < length ps)%nat as Hm.
  { split; [by apply Nat.div_le_lower_bound; lia|by apply Nat.div_lt; lia]. }
  destruct (IH (take (length ps / 2) sorted)) as [lo ->].
  { rewrite length_take. lia. }
  destruct (IH (drop (length ps / 2) sorted)) as [hi ->].
  { rewrite length_drop. lia. }
  done.
Qed.

(** With a bucket capacity below 1 the partition of a non-empty set of
    particles never reaches a leaf: no fuel is enough. *)
Lemma build_node_diverges fuel pos nb ps :
  nb < 1 → ps ≠ [] → build_node fuel pos nb ps = None.
Proof.
  intros Hnb. revert ps. induction fuel as [|fuel IH]; intros ps Hps; [done|].
  cbn [build_node].
  assert (1 ≤ length ps)%nat as Hlen by (destruct ps; [done|simpl; lia]).
  destruct (Z.of_nat (length ps) <=? nb) eqn:Hleaf;
    [apply Z.leb_le in Hleaf; lia|].
  set (sorted := sort_by _ ps).
  assert (length sorted = length ps) as Hs
    by (apply Permutation_length, sort_by_perm).
  assert (length ps / 2 < length ps)%nat as Hm by (apply Nat.div_lt; lia).
  rewrite (IH (drop (length ps / 2) sorted)).
  - by destruct (build_node fuel pos nb (take _ _)).
  - intros Hnil. apply (f_equal length) in Hnil.
    rewrite length_drop in Hnil. cbn [length] in Hnil. lia.
Qed.

Lemma init_particles_iOrder n : iOrder <$> init_particles n = seqZ 0 n.
Proof.
  unfold init_particles. rewrite <- list_fmap_compose.
  rewrite <- (list_fmap_id (seqZ 0 n)) at 2. by apply list_fmap_ext.
Qed.

Lemma init_particles_length n : length (init_particles n) = Z.to_nat n.
Proof. unfold init_particles. by rewrite length_fmap, length_seqZ. Qed.

Lemma Py_INCREF_run st o :
  ∃ st', Py_INCREF o st = Return (tt, st')
         ∧ kds st' = kds st ∧ smxs st' = smxs st ∧ calls st' = calls st
         ∧ next st' = next st
         ∧ ∀ a, is_Some (arrays st !! a) → is_Some (arrays st' !! a).
Proof.
  destruct o; simpl; try by eexists.
  eexists. repeat (split; [reflexivity|]). intros b [arr Hb]. simpl.
  rewrite lookup_alter. case_decide; subst; rewrite Hb; by eexists.
Qed.

(** [kdinit] on a position buffer whose row count is not negative as an
    [int]: with a bucket capacity of at least 1 and enough fuel it returns a
    handle to a context that holds the particles it numbered. *)
Lemma kdinit_returns fuel st a arr mass nb dim :
  in_int nb = true →
  arrays st !! a = Some arr →
  dims arr !! 0%nat = Some dim →
  0 ≤ int_of_intp dim →
  1 ≤ nb →
  (Z.to_nat (int_of_intp dim) < fuel)%nat →
  ∃ st' k,
    kdinit fuel [PyArr a; mass; PyLong nb] st
    = Return (Ok (PyCapsule (next st)), st')
    ∧ kds st' !! next st = Some k
    ∧ nParticles k = int_of_intp dim
    ∧ nBucket k = nb
    ∧ p k ≡ₚ init_particles (int_of_intp dim).
Proof.
  intros Hint Ha Hdim Hn Hnb Hfuel. unfold kdinit.
  rewrite parse_OOi by done.
  mstep reflexivity.
  mstep (unfold PyArray_DIM; mstep (by apply get_array_run);
              rewrite Hdim; reflexivity).
  mstep (apply get_kd_run, lookup_insert_eq).
  mstep reflexivity.
  match goal with |- context [(Py_INCREF _ ≫= _) ?s] => set (st2 := s) end.
  destruct (Py_INCREF_run st2 (PyArr a)) as (st3 & H3 & Hk3 & _ & _ & _ & Ha3).
  destruct (Py_INCREF_run st3 mass) as (st4 & H4 & Hk4 & _ & _ & _ & Ha4).
  mstep (exact H3). mstep (exact H4).
  destruct (int_of_intp dim <? 0) eqn:Hneg; [apply Z.ltb_lt in Hneg; lia|].
  assert (kds st4 !! next st = kds st2 !! next st) as Hk by by rewrite Hk4, Hk3.
  subst st2. cbn [kds set_kds] in Hk. rewrite lookup_insert_eq in Hk.
  mstep (apply get_kd_run, Hk).
  mstep reflexivity.
  destruct (Ha4 a) as [pos Hpos].
  { apply Ha3. simpl. by eexists. }
  destruct (build_node_total fuel pos nb (init_particles (int_of_intp dim)))
    as [t Ht]; [done|by rewrite init_particles_length|].
  mstep (unfold kdBuildTree;
              mstep (apply get_kd_run, lookup_insert_eq);
              cbn [pNumpyPos set_p set_pNumpyDen set_pNumpySmooth
                   set_pNumpyMass set_pNumpyPos empty_context];
              mstep (apply get_array_run, Hpos);
              cbn [nBucket p set_p set_pNumpyDen set_pNumpySmooth
                   set_pNumpyMass set_pNumpyPos set_counts empty_context];
              rewrite Ht; reflexivity).
  eexists _, _. split; [reflexivity|].
  cbn [kds set_kds]. rewrite lookup_insert_eq. split; [reflexivity|].
  repeat split. simpl. by eapply build_node_perm.
Qed.

(** [kdinit] on a non-empty position buffer with a bucket capacity below 1:
    the build modelled from the specification does not end, and the call
    hands back neither an index nor an error. *)
Lemma kdinit_bucket_below_one fuel st a arr mass nb dim :
  in_int nb = true →
  arrays st !! a = Some arr →
  dims arr !! 0%nat = Some dim →
  1 ≤ int_of_intp dim →
  nb < 1 →
  kdinit fuel [PyArr a; mass; PyLong nb] st = OutOfFuel.
Proof.
  intros Hint Ha Hdim Hn Hnb. unfold kdinit.
  rewrite parse_OOi by done.
  mstep reflexivity.
  mstep (unfold PyArray_DIM; mstep (by apply get_array_run);
              rewrite Hdim; reflexivity).
  mstep (apply get_kd_run, lookup_insert_eq).
  mstep reflexivity.
  match goal with |- context [(Py_INCREF _ ≫= _) ?s] => set (st2 := s) end.
  destruct (Py_INCREF_run st2 (PyArr a)) as (st3 & H3 & Hk3 & _ & _ & _ & Ha3).
  destruct (Py_INCREF_run st3 mass) as (st4 & H4 & Hk4 & _ & _ & _ & Ha4).
  mstep (exact H3). mstep (exact H4).
  destruct (int_of_intp dim <? 0) eqn:Hneg; [apply Z.ltb_lt in Hneg; lia|].
  assert (kds st4 !! next st = kds st2 !! next st) as Hk by by rewrite Hk4, Hk3.
  subst st2. cbn [kds set_kds] in Hk. rewrite lookup_insert_eq in Hk.
  mstep (apply get_kd_run, Hk).
  mstep reflexivity.
  destruct (Ha4 a) as [pos Hpos].
  { apply Ha3. simpl. by eexists. }
  unfold kdBuildTree.
  unfold mbind at 1, M_bind at 1, bind at 1.
  erewrite run_bind; [|apply get_kd_run, lookup_insert_eq].
  cbn [pNumpyPos set_p set_pNumpyDen set_pNumpySmooth
       set_pNumpyMass set_pNumpyPos empty_context].
  erewrite run_bind; [|apply get_array_run, Hpos].
  cbn [nBucket p set_p set_pNumpyDen set_pNumpySmooth
       set_pNumpyMass set_pNumpyPos set_counts empty_context].
  rewrite build_node_diverges; [done|done|].
  intros Hnil. apply (f_equal length) in Hnil.
  rewrite init_particles_length in Hnil. cbn [length] in Hnil. lia.
Qed.

(** C1. After [kdinit] has built the index over [n] particles, the
    original indices stored in the particle array are a permutation of
    0, 1, ..., n-1: each occurs exactly once, for every n ≥ 1 and every
    bucket capacity ≥ 1. *)
Theorem kdinit_permutation fuel st a arr mass nb dim n :
  in_int nb = true →
  arrays st !! a = Some arr →
  dims arr !! 0%nat = Some dim →
  int_of_intp dim = n →
  1 ≤ n →
  1 ≤ nb →
  (Z.to_nat n < fuel)%nat →
  ∃ st' k,
    kdinit fuel [PyArr a; mass; PyLong nb] st
    = Return (Ok (PyCapsule (next st)), st')
    ∧ kds st' !! next st = Some k
    ∧ nParticles k = n
    ∧ iOrder <$> p k ≡ₚ seqZ 0 n.
Proof.
  intros Hint Ha Hdim <- Hn Hnb Hfuel.
  destruct (kdinit_returns fuel st a arr mass nb dim)
    as (st' & k & Hrun & Hk & Hcount & _ & Hperm); try done; [lia|].
  exists st', k. repeat (split; [done|]).
  by rewrite Hperm, init_particles_iOrder.
Qed.

(** [kdinit] raises no error once its arguments are parsed: whatever the
    bucket capacity and the number of rows, a call that returns hands back
    a handle. *)
Lemma kdinit_no_error fuel st pos mass nb r st' :
  in_int nb = true →
  kdinit fuel [pos; mass; PyLong nb] st = Return (r, st') →
  ∃ kd, r = Ok (PyCapsule kd).
Proof.
  intros Hint. unfold kdinit. rewrite parse_OOi by done.
  unfold kdInit, malloc, PyArray_DIM, kdBuildTree.
  unfold mbind, M_bind, bind, ret, get_kd, put_kd, get_array, of_option,
    undef, abort, out_of_fuel.
  intros H. repeat (case_match; try done). simplify_eq. by eexists.
Qed.

(** C2 (amended). [kdinit] validates neither the bucket capacity nor the
    number of rows: it never fails with an error on parsed arguments, and
    for every bucket capacity ≥ 1 and every position buffer, also one with
    no row, it returns an index handle. *)
Theorem kdinit_never_invalid_argument fuel st pos mass nb :
  in_int nb = true →
  (∀ r st', kdinit fuel [pos; mass; PyLong nb] st = Return (r, st') →
            ¬ is_err r)
  ∧ (∀ a arr dim,
       pos = PyArr a →
       arrays st !! a = Some arr →
       dims arr !! 0%nat = Some dim →
       0 ≤ int_of_intp dim →
       1 ≤ nb →
       (Z.to_nat (int_of_intp dim) < fuel)%nat →
       ∃ st', kdinit fuel [pos; mass; PyLong nb] st
              = Return (Ok (PyCapsule (next st)), st')).
Proof.
  intros Hint. split.
  - intros r st' Hrun.
    destruct (kdinit_no_error _ _ _ _ _ _ _ Hint Hrun) as [kd ->]. simpl. tauto.
  - intros a arr dim -> Ha Hdim Hn Hnb Hfuel.
    destruct (kdinit_returns fuel st a arr mass nb dim)
      as (st' & k & Hrun & _); try done.
    by exists st'.
Qed.

(** ** populate: the density pass *)

Lemma zlookup_of_nat {A} (l : list A) (j : nat) :
  zlookup l (Z.of_nat j) = l !! j.
Proof.
  unfold zlookup. destruct (Z.of_nat j <? 0) eqn:H; [apply Z.ltb_lt in H; lia|].
  by rewrite Nat2Z.id.
Qed.

Lemma candidates_lookup pos ps ri c :
  c ∈ candidates pos ps ri → ∃ q, zlookup ps c.1 = Some q ∧ q ∈ ps.
Proof.
  unfold candidates. intros (j & q & -> & Hq)%elem_of_lookup_imap. simpl.
  exists q. rewrite zlookup_of_nat. split; [done|].
  by eapply list_elem_of_lookup_2.
Qed.

Lemma query_ball_lookup pos ps ri r2 c :
  c ∈ query_ball pos ps ri r2 → ∃ q, zlookup ps c.1 = Some q ∧ q ∈ ps.
Proof.
  unfold query_ball. intros Hc%list_elem_of_In%filter_In.
  destruct Hc as [Hc%list_elem_of_In _]. by eapply candidates_lookup.
Qed.

Lemma GET_run st a arr i x :
  arrays st !! a = Some arr →
  zlookup (data arr) i = Some x →
  GET (Some (PyArr a)) i st = Return (x, st).
Proof.
  intros Ha Hx. unfold GET. mstep (by apply get_array_run).
  by rewrite Hx.
Qed.

Lemma GET2_run st a arr i j x :
  arrays st !! a = Some arr →
  0 ≤ j < 3 →
  zlookup (data arr) (i * 3 + j) = Some x →
  GET2 (Some (PyArr a)) i j st = Return (x, st).
Proof.
  intros Ha Hj Hx. unfold GET2. mstep (by apply get_array_run).
  destruct (0 <=? j) eqn:H0; [|apply Z.leb_gt in H0; lia].
  destruct (j <? 3) eqn:H3; [|apply Z.ltb_ge in H3; lia].
  by rewrite Hx.
Qed.

Lemma SET_run st a arr i v :
  arrays st !! a = Some arr →
  is_Some (zlookup (data arr) i) →
  SET (Some (PyArr a)) i v st
  = Return (tt, set_arrays (<[a := set_data (zinsert i v (data arr)) arr]>
                              (arrays st)) st).
Proof.
  intros Ha [x Hx]. unfold SET. mstep (by apply get_array_run).
  by rewrite Hx.
Qed.

Lemma zlookup_zinsert {A} (l : list A) i x :
  is_Some (zlookup l i) → zlookup (zinsert i x l) i = Some x.
Proof.
  unfold zlookup, zinsert. destruct (i <? 0); [by intros []|].
  intros [y Hy]. apply list_lookup_insert_eq. by eapply lookup_lt_Some.
Qed.

Lemma zinsert_of_nat {A} (l : list A) (j : nat) x :
  zinsert (Z.of_nat j) x l = <[j := x]> l.
Proof.
  unfold zinsert. destruct (Z.of_nat j <? 0) eqn:H; [apply Z.ltb_lt in H; lia|].
  by rewrite Nat2Z.id.
Qed.

Lemma mapM_weighted_mass st k ma marr h (nbrs : list (Z * real)) :
  pNumpyMass k = Some (PyArr ma) →
  arrays st !! ma = Some marr →
  (∀ q, q ∈ p k → is_Some (zlookup (data marr) (iOrder q))) →
  (∀ c, c ∈ nbrs → ∃ q, zlookup (p k) c.1 = Some q ∧ q ∈ p k) →
  mapM (weighted_mass k h) nbrs st
  = Return ((λ c, rmul (kernelW h c.2) (neighbour_mass k marr c.1)) <$> nbrs, st).
Proof.
  intros Hm Hma Hread. induction nbrs as [|c nbrs IH]; intros Hn; [done|].
  cbn [mapM fmap list_fmap].
  destruct (Hn c) as (q & Hq & Hin); [by left|].
  destruct (Hread q Hin) as [m Hmq].
  mstep (unfold weighted_mass; rewrite Hq; mstep reflexivity;
         rewrite Hm; mstep (by eapply GET_run); reflexivity).
  mstep (apply IH; intros c' Hc'; apply Hn; by right).
  unfold ret. do 3 f_equal. unfold neighbour_mass. rewrite Hq. simpl.
  by rewrite Hmq.
Qed.

Lemma take_zip_scratch (nbrs : list (Z * real)) :
  take (Z.to_nat (Z.of_nat (length nbrs))) (zip nbrs.*1 nbrs.*2) = nbrs.
Proof. rewrite Nat2Z.id, zip_fst_snd. by apply take_ge. Qed.

Lemma smGetNext_run st l s g :
  smxs st !! l = Some s →
  smxs st !! cursor_owner l s = Some g →
  smGetNext l st
  = Return (pNext g,
            set_calls (calls st ++ [Call_smGetNext (pNext g)])
              (set_smxs (<[cursor_owner l s := set_cursor (pNext g + 1) g]>
                           (smxs st)) st)).
Proof.
  intros Hs Hg. unfold smGetNext.
  mstep (by apply get_smx_run). mstep (by apply get_smx_run).
  mstep reflexivity. mstep reflexivity. reflexivity.
Qed.

Lemma smBallGather_run st l s k pa parr fBall2 ri :
  smxs st !! l = Some s →
  kds st !! smx_kd s = Some k →
  pNumpyPos k = Some (PyArr pa) →
  arrays st !! pa = Some parr →
  smBallGather l fBall2 ri st
  = Return (Z.of_nat (length (query_ball parr (p k) ri fBall2)),
            set_calls
              (calls st ++
               [Call_smBallGather fBall2 ri
                  (Z.of_nat (length (query_ball parr (p k) ri fBall2)))])
              (set_smxs
                 (<[l := set_scratch (query_ball parr (p k) ri fBall2).*1
                           (query_ball parr (p k) ri fBall2).*2 s]> (smxs st))
                 st)).
Proof.
  intros Hs Hk Hpos Hpa. unfold smBallGather.
  mstep (by apply get_smx_run). mstep (by apply get_kd_run).
  mstep (unfold pos_array; rewrite Hpos; by apply get_array_run).
  mstep reflexivity. mstep reflexivity. reflexivity.
Qed.

Lemma smDensity_run st l s k i q sa sarr h ma marr da darr nbrs :
  smxs st !! l = Some s →
  kds st !! smx_kd s = Some k →
  zlookup (p k) i = Some q →
  pNumpySmooth k = Some (PyArr sa) →
  arrays st !! sa = Some sarr →
  zlookup (data sarr) (iOrder q) = Some h →
  pNumpyMass k = Some (PyArr ma) →
  arrays st !! ma = Some marr →
  (∀ q', q' ∈ p k → is_Some (zlookup (data marr) (iOrder q'))) →
  (∀ c, c ∈ nbrs → ∃ q', zlookup (p k) c.1 = Some q' ∧ q' ∈ p k) →
  pNumpyDen k = Some (PyArr da) →
  arrays st !! da = Some darr →
  is_Some (zlookup (data darr) (iOrder q)) →
  smDensity l i (Z.of_nat (length nbrs)) nbrs.*1 nbrs.*2 st
  = Return (tt,
            set_calls (calls st ++ [Call_smDensity i (Z.of_nat (length nbrs))])
              (set_arrays
                 (<[da := set_data (zinsert (iOrder q) (kernel_sum k marr h nbrs)
                                      (data darr)) darr]> (arrays st))
                 st)).
Proof.
  intros Hs Hk Hq Hsm Hsa Hh Hmass Hma Hmread Hn Hden Hda Hdq.
  unfold smDensity.
  mstep (by apply get_smx_run). mstep (by apply get_kd_run).
  rewrite Hq. mstep reflexivity.
  rewrite Hsm. mstep (by eapply GET_run).
  rewrite take_zip_scratch.
  mstep (by eapply mapM_weighted_mass).
  rewrite Hden. mstep (by eapply SET_run).
  reflexivity.
Qed.

(** The loop body of the density pass for the claimed particle [i], in a
    state where the buffers can be read for the particle and its
    neighbours: the state it ends in, and the next claim it hands over. *)
Lemma populate_rho_body_run st kd l k s g i q
    pa sa ma da parr sarr marr darr h :
  kds st !! kd = Some k →
  smxs st !! l = Some s →
  smx_kd s = kd →
  smxs st !! cursor_owner l s = Some g →
  zlookup (p k) i = Some q →
  pNumpyPos k = Some (PyArr pa) →
  arrays st !! pa = Some parr →
  (∀ j, 0 ≤ j < 3 → is_Some (zlookup (data parr) (iOrder q * 3 + j))) →
  pNumpySmooth k = Some (PyArr sa) →
  arrays st !! sa = Some sarr →
  zlookup (data sarr) (iOrder q) = Some h →
  pNumpyMass k = Some (PyArr ma) →
  arrays st !! ma = Some marr →
  (∀ q', q' ∈ p k → is_Some (zlookup (data marr) (iOrder q'))) →
  pNumpyDen k = Some (PyArr da) →
  arrays st !! da = Some darr →
  is_Some (zlookup (data darr) (iOrder q)) →
  let hsm := fcast h in
  let ri := fcast <$> particle_pos parr q in
  let fBall2 := rmul (rmul (rofZ 4) hsm) hsm in
  let nbrs := query_ball parr (p k) ri fBall2 in
  let rho := kernel_sum k marr h nbrs in
  let s' := set_scratch nbrs.*1 nbrs.*2 s in
  let g' := if decide (l = cursor_owner l s) then s' else g in
  populate_rho_body kd l i st
  = Return (pNext g,
            set_calls
              (calls st ++ [Call_smBallGather fBall2 ri (Z.of_nat (length nbrs));
                            Call_smDensity i (Z.of_nat (length nbrs));
                            Call_smGetNext (pNext g)])
              (set_smxs
                 (<[cursor_owner l s := set_cursor (pNext g + 1) g']>
                    (<[l := s']> (smxs st)))
                 (set_arrays
                    (<[da := set_data (zinsert (iOrder q) rho (data darr)) darr]>
                       (arrays st)) st))).
Proof.
  intros Hk Hs Hskd Hg Hq Hpos Hpa Hrow Hsm Hsa Hh Hmass Hma Hmread
    Hden Hda Hdq hsm ri fBall2 nbrs rho s' g'.
  destruct (Hrow 0) as [x0 Hx0]; [lia|].
  destruct (Hrow 1) as [x1 Hx1]; [lia|].
  destruct (Hrow 2) as [x2 Hx2]; [lia|].
  assert (ri = [fcast x0; fcast x1; fcast x2]) as Hri.
  { subst ri. unfold particle_pos, coord. cbn [map].
    change (Z.of_nat 0) with 0. change (Z.of_nat 1) with 1.
    change (Z.of_nat 2) with 2. by rewrite Hx0, Hx1, Hx2. }
  unfold populate_rho_body.
  mstep (by apply get_kd_run).
  rewrite Hq. mstep reflexivity.
  mstep (cbn [mapM]; rewrite Hpos;
         mstep (mstep (by eapply (GET2_run _ _ _ _ 0)); reflexivity);
         mstep (mstep (mstep (by eapply (GET2_run _ _ _ _ 1)); reflexivity);
                mstep (mstep (mstep (by eapply (GET2_run _ _ _ _ 2)); reflexivity);
                       mstep reflexivity; reflexivity);
                reflexivity);
         reflexivity).
  rewrite <- Hri.
  mstep (unfold GETSMOOTH; rewrite Hq; mstep reflexivity; rewrite Hsm;
         by eapply GET_run).
  fold hsm. fold fBall2.
  mstep (apply (smBallGather_run _ l s k pa parr); [done|by rewrite Hskd|done|done]).
  fold nbrs. fold s'.
  mstep (apply get_smx_run; simpl; apply lookup_insert_eq).
  subst s'. cbn [pList fList set_scratch].
  mstep (eapply (smDensity_run _ l _ k i q); simpl;
         [apply lookup_insert_eq|by simpl; rewrite Hskd|done|done|done|done
         |done|done|done|by apply query_ball_lookup|done|done|done]).
  fold rho.
  set (s' := set_scratch nbrs.*1 nbrs.*2 s) in *.
  match goal with |- context [smGetNext l ?s3] => set (st3 := s3) end.
  assert (smxs st3 !! l = Some s') as Hl3
    by (subst st3; simpl; apply lookup_insert_eq).
  assert (pNext g' = pNext g) as Hnext.
  { subst g'. destruct (decide (l = cursor_owner l s)) as [Heq|Hne]; [|done].
    rewrite <- Heq, Hs in Hg. by injection Hg as <-. }
  assert (smxs st3 !! cursor_owner l s' = Some g') as Hg'.
  { change (cursor_owner l s') with (cursor_owner l s).
    subst st3 g'. simpl.
    destruct (decide (l = cursor_owner l s)) as [Heq|Hne].
    - rewrite <- Heq. apply lookup_insert_eq.
    - by rewrite lookup_insert_ne. }
  rewrite (smGetNext_run _ _ _ _ Hl3 Hg').
  change (cursor_owner l s') with (cursor_owner l s).
  rewrite Hnext. subst st3. unfold set_calls, set_smxs, set_arrays. simpl.
  by rewrite <- !app_assoc.
Qed.


Lemma zlookup_lt {A} (l : list A) i :
  0 ≤ i < Z.of_nat (length l) → is_Some (zlookup l i).
Proof.
  intros Hi. unfold zlookup.
  destruct (i <? 0) eqn:E; [apply Z.ltb_lt in E; lia|].
  apply lookup_lt_is_Some_2. lia.
Qed.

Lemma zlookup_elem_of {A} (l : list A) i x : zlookup l i = Some x → x ∈ l.
Proof.
  unfold zlookup. destruct (i <? 0); [done|]. apply list_elem_of_lookup_2.
Qed.

Lemma readable_zlookup st k a arr w q j :
  arrays st !! a = Some arr →
  (∀ q, q ∈ p k →
     0 ≤ iOrder q ∧ (iOrder q + 1) * w ≤ Z.of_nat (length (data arr))) →
  q ∈ p k → 0 ≤ j < w →
  is_Some (zlookup (data arr) (iOrder q * w + j)).
Proof.
  intros _ Hall Hq Hj. destruct (Hall q Hq) as [H0 Hlen].
  apply zlookup_lt. nia.
Qed.

Lemma length_zinsert {A} (l : list A) i x : length (zinsert i x l) = length l.
Proof. unfold zinsert. destruct (i <? 0); [done|apply length_insert]. Qed.

(** A write into a buffer keeps every buffer readable. *)
Lemma readable_write st st' k ptr w da darr i v :
  arrays st !! da = Some darr →
  arrays st' = <[da := set_data (zinsert i v (data darr)) darr]> (arrays st) →
  readable st k ptr w → readable st' k ptr w.
Proof.
  intros Hda Harr (a & arr & -> & Ha & Hall). unfold readable. rewrite Harr.
  destruct (decide (a = da)) as [->|Hne].
  - eexists da, _. split; [done|]. split; [apply lookup_insert_eq|].
    simpl. rewrite length_zinsert. by simplify_eq.
  - exists a, arr. split; [done|]. by rewrite lookup_insert_ne.
Qed.

(** The loop body in a ready state: it hands over the particle at the
    cursor, advances the cursor by one and leaves a ready state. *)
Lemma populate_rho_body_ready st kd l k c i q :
  density_ready st kd l k →
  cursor st l = Some c →
  zlookup (p k) i = Some q →
  ∃ st', populate_rho_body kd l i st = Return (c, st')
         ∧ density_ready st' kd l k
         ∧ cursor st' l = Some (c + 1).
Proof.
  intros (Hk & (s & Hs & Hskd & [g Hg]) & Hpos & Hsm & Hmass & Hden) Hc Hq.
  assert (q ∈ p k) as Hin by by eapply zlookup_elem_of.
  assert (pNext g = c) as <-.
  { unfold cursor in Hc. rewrite Hs in Hc. simpl in Hc. rewrite Hg in Hc.
    by injection Hc. }
  pose proof Hpos as (pa & parr & Hpos' & Hpa & Hpall).
  pose proof Hsm as (sa & sarr & Hsm' & Hsa & Hsall).
  pose proof Hmass as (ma & marr & Hmass' & Hma & Hmall).
  pose proof Hden as (da & darr & Hden' & Hda & Hdall).
  destruct (readable_zlookup st k sa sarr 1 q 0 Hsa Hsall Hin) as [h Hh]; [lia|].
  rewrite Z.mul_1_r, Z.add_0_r in Hh.
  eexists. split.
  { eapply (populate_rho_body_run st kd l k s g i q pa sa ma da); try done.
    - intros j Hj. by eapply readable_zlookup.
    - intros q' Hq'.
      destruct (readable_zlookup st k ma marr 1 q' 0 Hma Hmall Hq') as [m Hm];
        [lia|]. rewrite Z.mul_1_r, Z.add_0_r in Hm. by eexists.
    - destruct (readable_zlookup st k da darr 1 q 0 Hda Hdall Hin) as [d Hd];
        [lia|]. rewrite Z.mul_1_r, Z.add_0_r in Hd. by eexists. }
  match goal with |- density_ready ?s1 _ _ _ ∧ _ => set (st' := s1) end.
  assert (∃ s'', smxs st' !! l = Some s'' ∧ smx_kd s'' = kd
                 ∧ cursor_owner l s'' = cursor_owner l s
                 ∧ ∃ g'', smxs st' !! cursor_owner l s = Some g''
                          ∧ pNext g'' = pNext g + 1)
    as (s'' & Hs'' & Hskd'' & Hown'' & g'' & Hg'' & Hnext'').
  { subst st'. simpl. destruct (decide (l = cursor_owner l s)) as [Heq|Hne].
    - rewrite <- Heq. eexists. split; [apply lookup_insert_eq|].
      split; [done|]. split; [done|]. eexists. split; [apply lookup_insert_eq|].
      done.
    - eexists. split; [by rewrite lookup_insert_ne, lookup_insert_eq|].
      split; [done|]. split; [done|]. eexists.
      split; [apply lookup_insert_eq|]. done. }
  assert (kds st' !! kd = Some k) as Hk' by done.
  assert (∀ ptr w, readable st k ptr w → readable st' k ptr w) as Hread
    by (intros ptr w; by eapply (readable_write st st' k ptr w da darr)).
  clearbody st'. split.
  - split; [done|]. split.
    { exists s''. split; [done|]. split; [done|]. rewrite Hown''. by eexists. }
    repeat split; by apply Hread.
  - unfold cursor. rewrite Hs''. simpl. rewrite Hown'', Hg''. simpl.
    by rewrite Hnext''.
Qed.

(** The density pass runs the loop body for each claimed particle in turn,
    the body handing over the next claim. *)
Lemma populate_rho_claimed fuel kd l nbodies i :
  i < nbodies →
  populate_rho (S fuel) kd l nbodies i
  = populate_rho_body kd l i ≫= populate_rho fuel kd l nbodies.
Proof.
  intros Hi. cbn [populate_rho].
  by destruct (i <? nbodies) eqn:E; [|apply Z.ltb_ge in E; lia].
Qed.

Lemma populate_rho_exhausted fuel kd l nbodies i st :
  nbodies ≤ i → populate_rho fuel kd l nbodies i st = Return (tt, st).
Proof.
  intros Hi. destruct fuel; cbn [populate_rho];
    by destruct (i <? nbodies) eqn:E; [apply Z.ltb_lt in E; lia|].
Qed.

(** From a ready state the loop of the density pass ends when the fuel
    covers the particles that are left, and leaves a ready state. *)
Lemma populate_rho_terminates fuel st kd l k nbodies i c :
  density_ready st kd l k →
  cursor st l = Some c →
  0 ≤ i → 0 ≤ c →
  nbodies ≤ Z.of_nat (length (p k)) →
  (i < nbodies → (Z.to_nat (nbodies - c) < fuel)%nat) →
  ∃ st', populate_rho fuel kd l nbodies i st = Return (tt, st')
         ∧ density_ready st' kd l k.
Proof.
  revert st i c. induction fuel as [|fuel IH]; intros st i c Hready Hc Hi H0 Hn Hfuel.
  - destruct (decide (i < nbodies)) as [Hlt|Hge]; [specialize (Hfuel Hlt); lia|].
    exists st. split; [apply populate_rho_exhausted; lia|done].
  - destruct (decide (i < nbodies)) as [Hlt|Hge].
    + rewrite populate_rho_claimed by done.
      destruct (zlookup_lt (p k) i) as [q Hq]; [lia|].
      destruct (populate_rho_body_ready _ _ _ _ _ _ _ Hready Hc Hq)
        as (st1 & Hrun & Hready1 & Hc1).
      mstep (exact Hrun).
      specialize (Hfuel Hlt). apply (IH st1 c (c + 1)); try done; lia.
    + exists st. split; [apply populate_rho_exhausted; lia|done].
Qed.

Lemma readable_arrays st st' k ptr w :
  arrays st' = arrays st → readable st k ptr w → readable st' k ptr w.
Proof. intros Harr. unfold readable. by rewrite Harr. Qed.

Lemma bound_double_checkable st ptr :
  bound_double st ptr = true → checkable st ptr.
Proof.
  unfold bound_double, checkable. destruct ptr as [[]|]; try done.
  destruct (arrays st !! a); [by eexists|done].
Qed.

(** The density pass as a whole: on an index whose smoothing, density and
    mass bindings are double buffers that hold a value for every particle,
    and a session with a cursor of its own, [populate] returns [None] when
    the fuel covers the particles that are left. *)
Lemma populate_density_pass fuel st kd k g gs procid pa parr nbodies :
  in_int procid = true →
  kds st !! kd = Some k →
  smxs st !! g = Some gs →
  smx_kd gs = kd →
  smx_global gs = None →
  next st ≠ g →
  0 ≤ pNext gs →
  pNumpyPos k = Some (PyArr pa) →
  arrays st !! pa = Some parr →
  dims parr !! 0%nat = Some nbodies →
  nbodies ≤ Z.of_nat (length (p k)) →
  readable st k (pNumpyPos k) 3 →
  readable st k (pNumpySmooth k) 1 →
  readable st k (pNumpyMass k) 1 →
  readable st k (pNumpyDen k) 1 →
  bound_double st (pNumpySmooth k) = true →
  bound_double st (pNumpyDen k) = true →
  bound_double st (pNumpyMass k) = true →
  (Z.to_nat (nbodies - pNext gs) < fuel)%nat →
  ∃ st',
    populate fuel [PyCapsule kd; PyCapsule g; PyLong PROPID_RHO; PyLong procid] st
    = Return (Ok Py_None, st').
Proof.
  intros Hint Hk Hg Hgkd Hglob Hfresh Hc0 Hpos Hpa Hdim Hn
    Hrpos Hrsm Hrmass Hrden Hbs Hbd Hbm Hfuel.
  unfold populate. rewrite parse_OOii by done. cbn [PyCapsule_GetPointer].
  mstep reflexivity. mstep (by apply get_kd_run).
  mstep (unfold PyArray_DIM; rewrite Hpos; mstep (by apply get_array_run);
         by rewrite Hdim).
  change (PROPID_HSM <? PROPID_RHO) with true.
  change (PROPID_RHO <? PROPID_RHO) with false. cbn [app].
  destruct (check_arrays_spec st
              [pNumpySmooth k; pNumpyDen k; pNumpyMass k; pNumpySmooth k])
    as (c & Hchk & Hc).
  { repeat constructor; by apply bound_double_checkable. }
  mstep (exact Hchk).
  destruct Hc as [_ Hc]. rewrite Hc by (simpl; by rewrite Hbs, Hbd, Hbm).
  mstep reflexivity.
  mstep (unfold smInitThreadLocalCopy; mstep (by apply get_smx_run);
         mstep reflexivity; mstep reflexivity; reflexivity).
  mstep (apply get_smx_run; simpl; apply lookup_insert_eq).
  mstep reflexivity.
  change (PROPID_RHO =? PROPID_HSM) with false.
  change (PROPID_RHO =? PROPID_RHO) with true. cbv iota.
  match goal with |- context [(_ ≫= _) ?s2] => set (st2 := s2) end.
  set (l := next st) in *.
  set (sl := set_pi 0 (set_warnings false _)) in *.
  assert (smxs st2 !! l = Some sl) as Hl by (subst st2; simpl; apply lookup_insert_eq).
  assert (cursor_owner l sl = g) as Hown by (subst sl; unfold cursor_owner; done).
  assert (smxs st2 !! g = Some gs) as Hg2.
  { subst st2. simpl. by rewrite !lookup_insert_ne. }
  assert (∃ st4,
            (smGetNext l ≫= λ i, populate_rho fuel kd l nbodies i) st2
            = Return (tt, st4)
            ∧ density_ready st4 kd l k) as (st4 & Hrun & Hready4).
  { mstep (eapply smGetNext_run; [done|by rewrite Hown]).
    rewrite Hown.
    match goal with |- context [populate_rho _ _ _ _ _ ?s3] => set (st3 := s3) end.
    apply (populate_rho_terminates fuel st3 kd l k nbodies (pNext gs)
             (pNext gs + 1)); try done; try lia.
    - split; [done|]. split.
      + exists sl. split; [subst st3; simpl; by rewrite lookup_insert_ne|].
        split; [subst sl; simpl; done|].
        rewrite Hown. subst st3. simpl. rewrite lookup_insert_eq. by eexists.
      + repeat split; by apply (readable_arrays st st3).
    - unfold cursor. subst st3. simpl. rewrite lookup_insert_ne by done.
      rewrite lookup_insert_eq. simpl. rewrite Hown, lookup_insert_eq. done. }
  mstep (exact Hrun).
  destruct Hready4 as (_ & (s4 & Hs4 & _) & _).
  mstep (unfold smFinishThreadLocalCopy; mstep (by apply get_smx_run);
         reflexivity).
  by eexists.
Qed.

(** ** nn_next *)

(** The loop of [nn_next] copies the scratch lists of the session into the
    two Python lists. *)
Lemma nn_fill_run st s n i :
  length (pList s) = (i + n)%nat →
  length (fList s) = (i + n)%nat →
  nn_fill n (Z.of_nat i) s
    (Some (((Some ∘ PyLong) <$> take i (pList s)) ++ replicate n None))
    (Some (((Some ∘ PyFloat) <$> take i (fList s)) ++ replicate n None)) st
  = Return ((Some ((Some ∘ PyLong) <$> pList s),
             Some ((Some ∘ PyFloat) <$> fList s)), st).
Proof.
  revert i. induction n as [|n IH]; intros i Hp Hf.
  - cbn [nn_fill replicate]. rewrite !app_nil_r.
    rewrite !take_ge by lia. reflexivity.
  - cbn [nn_fill]. mstep reflexivity. mstep reflexivity.
    rewrite !zlookup_of_nat.
    destruct (lookup_lt_is_Some_2 (pList s) i) as [pj Hpj]; [lia|].
    destruct (lookup_lt_is_Some_2 (fList s) i) as [fj Hfj]; [lia|].
    rewrite Hpj, Hfj. mstep reflexivity. mstep reflexivity.
    unfold PyList_SetItem. rewrite !zinsert_of_nat.
    replace (Z.of_nat i + 1) with (Z.of_nat (S i)) by lia.
    cbn [replicate].
    rewrite !insert_app_r_alt by (rewrite length_fmap, length_take; lia).
    rewrite !length_fmap, !length_take.
    replace (i - i `min` length (pList s))%nat with 0%nat by lia.
    replace (i - i `min` length (fList s))%nat with 0%nat by lia.
    cbn [insert list_insert].
    rewrite !cons_middle, !app_assoc.
    replace (((Some ∘ PyLong) <$> take i (pList s)) ++ [Some (PyLong pj)])
      with ((Some ∘ PyLong) <$> take (S i) (pList s))
      by (by rewrite (take_S_r _ _ _ Hpj), fmap_app).
    replace (((Some ∘ PyFloat) <$> take i (fList s)) ++ [Some (PyFloat fj)])
      with ((Some ∘ PyFloat) <$> take (S i) (fList s))
      by (by rewrite (take_S_r _ _ _ Hfj), fmap_app).
    apply IH; lia.
Qed.

(** [smSmoothStep] on a session whose cursor has passed the last particle. *)
Lemma smSmoothStep_exhausted st smx s k g procid :
  smxs st !! smx = Some s →
  kds st !! smx_kd s = Some k →
  smxs st !! cursor_owner smx s = Some g →
  nActive k ≤ pNext g →
  smSmoothStep smx procid st
  = Return (-1, set_calls (calls st ++ [Call_smSmoothStep procid (-1)]) st).
Proof.
  intros Hs Hk Hg Hend. unfold smSmoothStep.
  mstep (by apply get_smx_run). mstep (by apply get_kd_run).
  mstep (by apply get_smx_run).
  destruct (nActive k <=? pNext g) eqn:E; [|apply Z.leb_gt in E; lia].
  mstep reflexivity. reflexivity.
Qed.

(** [smSmoothStep] on a session of its own cursor with a particle left: the
    particle at the cursor is claimed, its nearest neighbours fill the
    scratch lists and its smoothing length is stored. *)
Lemma smSmoothStep_claims st smx s k q pa parr sa sarr procid :
  smxs st !! smx = Some s →
  smx_global s = None →
  kds st !! smx_kd s = Some k →
  pNext s < nActive k →
  zlookup (p k) (pNext s) = Some q →
  pNumpyPos k = Some (PyArr pa) →
  arrays st !! pa = Some parr →
  pNumpySmooth k = Some (PyArr sa) →
  arrays st !! sa = Some sarr →
  is_Some (zlookup (data sarr) (iOrder q)) →
  let nbrs := query_k_nearest parr (p k) (particle_pos parr q) (nSmooth s) in
  let h := rsqrt (default r0 (last nbrs.*2)) in
  smSmoothStep smx procid st
  = Return (Z.of_nat (length nbrs),
            set_calls (calls st ++ [Call_smGetNext (pNext s);
                                    Call_smSmoothStep procid (Z.of_nat (length nbrs))])
              (set_smxs (<[smx := set_scratch nbrs.*1 nbrs.*2
                                    (set_pi (pNext s) (set_cursor (pNext s + 1) s))]>
                           (smxs st))
                 (set_arrays (<[sa := set_data (zinsert (iOrder q) h (data sarr))
                                        sarr]> (arrays st)) st))).
Proof.
  intros Hs Hglob Hk Hleft Hq Hpos Hpa Hsm Hsa Hread nbrs h.
  assert (cursor_owner smx s = smx) as Hown by (unfold cursor_owner; by rewrite Hglob).
  unfold smSmoothStep.
  mstep (by apply get_smx_run). mstep (by apply get_kd_run).
  rewrite Hown. mstep (by apply get_smx_run).
  destruct (nActive k <=? pNext s) eqn:E; [apply Z.leb_le in E; lia|].
  mstep (eapply smGetNext_run; [done|by rewrite Hown]).
  rewrite Hown, Hq. mstep reflexivity.
  mstep (unfold pos_array; rewrite Hpos; by apply get_array_run).
  fold nbrs. fold h. rewrite Hsm.
  mstep (by eapply SET_run).
  mstep (apply get_smx_run; simpl; apply lookup_insert_eq).
  mstep reflexivity. mstep reflexivity.
  unfold ret, set_calls, set_smxs, set_arrays. simpl.
  by rewrite insert_insert_eq, <- app_assoc.
Qed.

Lemma query_k_nearest_nonempty pos ps ri (n : Z) :
  1 ≤ n → ps ≠ [] → query_k_nearest pos ps ri n ≠ [].
Proof.
  intros Hn Hps Hnil. apply (f_equal length) in Hnil.
  unfold query_k_nearest in Hnil. rewrite length_take in Hnil.
  rewrite (Permutation_length (sort_by_perm _ _)) in Hnil.
  unfold candidates in Hnil. rewrite length_imap in Hnil.
  destruct ps; [done|]. simpl in Hnil. lia.
Qed.

(** A step of [nn_next] with a particle left returns the list of four
    elements: the cursor position of the claimed particle, its smoothing
    length (the distance to the farthest of its nearest neighbours), the
    neighbour indices and the neighbour distances. *)
Lemma nn_next_step st kdobj smx s k q pa parr sa sarr :
  smxs st !! smx = Some s →
  smx_global s = None →
  1 ≤ nSmooth s →
  kds st !! smx_kd s = Some k →
  pNext s < nActive k →
  zlookup (p k) (pNext s) = Some q →
  pNumpyPos k = Some (PyArr pa) →
  arrays st !! pa = Some parr →
  pNumpySmooth k = Some (PyArr sa) →
  arrays st !! sa = Some sarr →
  is_Some (zlookup (data sarr) (iOrder q)) →
  let nbrs := query_k_nearest parr (p k) (particle_pos parr q) (nSmooth s) in
  let h := rsqrt (default r0 (last nbrs.*2)) in
  ∃ st',
    nn_next [kdobj; PyCapsule smx] st
    = Return (Ok (PyList [Some (PyLong (pNext s)); Some (PyFloat h);
                          Some (PyList ((Some ∘ PyLong) <$> nbrs.*1));
                          Some (PyList ((Some ∘ PyFloat) <$> nbrs.*2))]), st').
Proof.
  intros Hs Hglob Hns Hk Hleft Hq Hpos Hpa Hsm Hsa Hread nbrs h.
  assert (nbrs ≠ []) as Hne.
  { apply query_k_nearest_nonempty; [done|]. intros Hnil.
    rewrite Hnil in Hq. unfold zlookup in Hq. by destruct (pNext s <? 0). }
  unfold nn_next. rewrite parse_OO. cbn [PyCapsule_GetPointer].
  mstep reflexivity.
  mstep (by eapply smSmoothStep_claims).
  fold nbrs. fold h.
  destruct (Z.of_nat (length nbrs) =? 0) eqn:E.
  { apply Z.eqb_eq in E. destruct nbrs; [done|simpl in E; lia]. }
  cbn [negb]. unfold PyList_New.
  destruct (Z.of_nat (length nbrs) <? 0) eqn:E'; [apply Z.ltb_lt in E'; lia|].
  rewrite Nat2Z.id. cbn [Z.ltb Z.compare].
  mstep reflexivity.
  match goal with |- context [(_ ≫= _) ?s3] => set (st3 := s3) end.
  set (s3 := set_scratch nbrs.*1 nbrs.*2 (set_pi (pNext s) (set_cursor (pNext s + 1) s))).
  assert (smxs st3 !! smx = Some s3) as Hs3
    by (subst st3; simpl; apply lookup_insert_eq).
  mstep (mstep (by apply get_smx_run);
         apply (nn_fill_run st3 s3 (length nbrs) 0);
         subst s3; simpl; by rewrite length_fmap).
  cbv beta iota.
  mstep (by apply get_smx_run).
  mstep (apply get_kd_run; subst st3 s3; simpl; exact Hk).
  subst s3. cbn [pi set_scratch set_pi]. rewrite Hq. mstep reflexivity.
  rewrite Hsm.
  mstep (eapply GET_run; [subst st3; simpl; apply lookup_insert_eq|];
         simpl; by apply zlookup_zinsert).
  eexists. reflexivity.
Qed.

(** C8. Once the cursor of the session has passed the last particle,
    [smSmoothStep] answers -1, and [nn_next], which only tests the count
    against 0, does not return [None]: it returns a list of 4 elements, the
    stale cursor position and smoothing length and two [NULL] lists (the
    results of [PyList_New(-1)]). *)
Theorem nn_next_exhausted_not_done st kdobj smx s k g q sa sarr h :
  smxs st !! smx = Some s →
  kds st !! smx_kd s = Some k →
  smxs st !! cursor_owner smx s = Some g →
  nActive k ≤ pNext g →
  zlookup (p k) (pi s) = Some q →
  pNumpySmooth k = Some (PyArr sa) →
  arrays st !! sa = Some sarr →
  zlookup (data sarr) (iOrder q) = Some h →
  nn_next [kdobj; PyCapsule smx] st
  = Return (Ok (PyList [Some (PyLong (pi s)); Some (PyFloat h); None; None]),
            set_calls (calls st ++ [Call_smSmoothStep 0 (-1)]) st).
Proof.
  intros Hs Hk Hg Hend Hq Hsm Hsa Hh. unfold nn_next.
  rewrite parse_OO. cbn [PyCapsule_GetPointer].
  mstep reflexivity.
  mstep (by eapply smSmoothStep_exhausted).
  cbn [negb Z.eqb PyList_New Z.ltb Z.compare Z.to_nat nn_fill].
  mstep reflexivity.
  mstep (mstep (by apply get_smx_run); reflexivity).
  cbv beta iota.
  mstep (by apply get_smx_run). mstep (by apply get_kd_run).
  rewrite Hq. mstep reflexivity.
  rewrite Hsm. mstep (by eapply GET_run).
  reflexivity.
Qed.

(** * Further properties of kdmain.c *)

Lemma bind_inv {A B} (m : M A) (f : A → M B) st r st' :
  (m ≫= f) st = Return (r, st') →
  ∃ x st1, m st = Return (x, st1) ∧ f x st1 = Return (r, st').
Proof.
  unfold mbind, M_bind, bind. destruct (m st) as [[x st1]| | |]; try done.
  eauto.
Qed.

Lemma refcnt_INCREF st o :
  ∃ st', Py_INCREF o st = Return (tt, st')
         ∧ kds st' = kds st ∧ smxs st' = smxs st ∧ calls st' = calls st
         ∧ next st' = next st
         ∧ (∀ a, refcnt st' a = (λ z, z + refs_to a (Some o)) <$> refcnt st a)
         ∧ (∀ a, is_Some (arrays st !! a) → is_Some (arrays st' !! a)).
Proof.
  unfold refcnt, refs_to.
  destruct o as [| | | |b|]; simpl;
    try (eexists; repeat (split; [reflexivity|]); split; [|done]; intros a;
         destruct (arrays st !! a); simpl; f_equal; lia).
  eexists. repeat (split; [reflexivity|]). simpl. split.
  - intros a. rewrite lookup_alter. destruct (decide (a = b)) as [->|Hne].
    + rewrite decide_True by done.
      destruct (arrays st !! b); simpl; f_equal.
    + rewrite decide_False by done.
      destruct (arrays st !! a); simpl; f_equal; lia.
  - intros a [arr Ha]. rewrite lookup_alter.
    case_decide; subst; rewrite Ha; by eexists.
Qed.

(** ** checkArray *)

(** [checkArray] never changes the state. It answers 0 exactly for a
    buffer of C doubles; an absent buffer is a ValueError, a buffer of any
    other element type (or without dtype) a TypeError. *)
Theorem checkArray_classifies st (ptr : option PyObject) :
  checkable st ptr →
  ∃ c,
    checkArray ptr st = Return (c, st)
    ∧ match c with
      | None => bound_double st ptr = true
      | Some (e, _) =>
          bound_double st ptr = false
          ∧ (ptr = None → e = PyExc_ValueError)
          ∧ (ptr ≠ None → e = PyExc_TypeError)
      end.
Proof.
  unfold checkable, bound_double. destruct ptr as [[]|]; try done.
  - intros [arr Ha]. rewrite (checkArray_array _ _ _ Ha), Ha. simpl.
    destruct (is_double arr); eexists; (split; [reflexivity|]); [done|].
    repeat split; done.
  - intros _. eexists. split; [reflexivity|]. repeat split; done.
Qed.

(** ** set_arrayref and get_arrayref, continued *)

(** What a successful [set_arrayref] does to the state. *)
Lemma set_arrayref_run st kd k arid e b arr :
  kds st !! kd = Some k →
  switch_arid arid = Some e →
  arrays st !! b = Some arr →
  is_double arr = true →
  ∃ st',
    set_arrayref [PyCapsule kd; PyLong arid; PyArr b] st
    = Return (Ok Py_None, st')
    ∧ kds st' = <[kd := slot_set e (Some (PyArr b)) k]> (kds st)
    ∧ smxs st' = smxs st ∧ calls st' = calls st ∧ next st' = next st
    ∧ ∀ a, refcnt st' a
           = (λ z, z - refs_to a (slot_get e k) + refs_to a (Some (PyArr b)))
             <$> refcnt st a.
Proof.
  intros Hk He Hb Hd. unfold set_arrayref.
  rewrite parse_OiO by eauto using in_int_slot. cbn [PyCapsule_GetPointer].
  mstep (by apply checkArray_array). rewrite Hd, He.
  mstep (by apply checkArray_array). rewrite Hd.
  mstep (by apply get_kd_run).
  destruct (refcnt_XDECREF st (slot_get e k))
    as (st1 & H1 & Hk1 & Hs1 & Hc1 & Hn1 & Hr1).
  mstep (exact H1). mstep reflexivity.
  match goal with |- context [(Py_INCREF _ ≫= _) ?s] => set (st2 := s) end.
  destruct (refcnt_INCREF st2 (PyArr b))
    as (st3 & H3 & Hk3 & Hs3 & Hc3 & Hn3 & Hr3 & _).
  mstep (exact H3). exists st3. split; [reflexivity|].
  rewrite Hk3, Hs3, Hc3, Hn3. subst st2. simpl.
  rewrite Hk1, Hs1, Hc1, Hn1. repeat (split; [done|]).
  intros a. rewrite Hr3. unfold refcnt at 1. simpl. fold (refcnt st1 a).
  rewrite Hr1. destruct (refcnt st a); simpl; f_equal.
Qed.

(** A successful [set_arrayref] gives back the reference held for the
    buffer that was bound to the slot and takes one for the new buffer; the
    count of every other array stays as it is. *)
Theorem set_arrayref_moves_reference st kd k arid e b arr :
  kds st !! kd = Some k →
  switch_arid arid = Some e →
  arrays st !! b = Some arr →
  is_double arr = true →
  ∃ st',
    set_arrayref [PyCapsule kd; PyLong arid; PyArr b] st
    = Return (Ok Py_None, st')
    ∧ ∀ a, refcnt st' a
           = (λ z, z - refs_to a (slot_get e k) + refs_to a (Some (PyArr b)))
             <$> refcnt st a.
Proof.
  intros Hk He Hb Hd.
  destruct (set_arrayref_run _ _ _ _ _ _ _ Hk He Hb Hd) as (st' & Hrun & H).
  exists st'. split; [done|]. apply H.
Qed.

(** Whatever its arguments are, a call of [set_arrayref] that hands back an
    error has changed nothing. *)
Theorem set_arrayref_error_keeps_state args st r st' :
  set_arrayref args st = Return (r, st') → is_err r → st' = st.
Proof.
  unfold set_arrayref, capsule_error, raise, checkArray.
  unfold mbind, M_bind, bind, ret, unparsed, undef, get_array, get_kd, put_kd.
  intros H. repeat (case_match; try done); simplify_eq; try done.
  all: by destruct (slot_get _ _) as [[]|].
Qed.

(** The order of the checks of [set_arrayref]: the handle first, then the
    element type of the buffer, then the slot id. *)
Theorem set_arrayref_error_precedence st kdobj arid b arr :
  in_int arid = true →
  arrays st !! b = Some arr →
  (PyCapsule_GetPointer kdobj = None →
   set_arrayref [kdobj; PyLong arid; PyArr b] st = Return (capsule_error, st))
  ∧ (is_Some (PyCapsule_GetPointer kdobj) → is_double arr = false →
     set_arrayref [kdobj; PyLong arid; PyArr b] st
     = Return (Err PyExc_TypeError
                 "Incorrect numpy data type to kdtree - must match C double", st))
  ∧ (is_Some (PyCapsule_GetPointer kdobj) → is_double arr = true →
     switch_arid arid = None →
     set_arrayref [kdobj; PyLong arid; PyArr b] st
     = Return (Err PyExc_ValueError "Unknown array to set for KD tree", st)).
Proof.
  intros Hint Hb. unfold set_arrayref. rewrite parse_OiO by done.
  split; [by intros ->|].
  split.
  - intros [kd ->] Hd. mstep (by apply checkArray_array). by rewrite Hd.
  - intros [kd ->] Hd Hid. mstep (by apply checkArray_array).
    by rewrite Hd, Hid.
Qed.

(** Binding and reading back: after a successful [set_arrayref] on a slot,
    [get_arrayref] answers the new buffer for that slot and what it answered
    before for every other slot. *)
Theorem get_arrayref_set_arrayref st st' kd k arid arid' e e' b :
  kds st !! kd = Some k →
  switch_arid arid = Some e →
  switch_arid arid' = Some e' →
  set_arrayref [PyCapsule kd; PyLong arid; PyArr b] st = Return (Ok Py_None, st') →
  (e' = e →
   get_arrayref [PyCapsule kd; PyLong arid'] st' = Return (Ok (PyArr b), st'))
  ∧ (e' ≠ e →
     get_arrayref [PyCapsule kd; PyLong arid'] st'
     = Return (Ok (default Py_None (slot_get e' k)), st')).
Proof.
  intros Hk He He'. unfold set_arrayref.
  rewrite parse_OiO by eauto using in_int_slot. cbn [PyCapsule_GetPointer].
  unfold mbind, M_bind, bind.
  destruct (checkArray (Some (PyArr b)) st) as [[[c|] st0]| | |] eqn:Hc; try done.
  rewrite He.
  destruct (checkArray (Some (PyArr b)) st0) as [[[c|] st1]| | |] eqn:Hc1;
    try done.
  assert (st0 = st ∧ st1 = st) as [-> ->].
  { unfold checkArray, mbind, M_bind, bind, get_array, ret in Hc, Hc1.
    destruct (arrays st !! b); [|done].
    repeat case_match; simplify_eq; try done. }
  unfold get_kd. rewrite Hk.
  destruct (Py_XDECREF (slot_get e k) st) as [[[] st2]| | |] eqn:Hdec; try done.
  intros [= <-]. split.
  - intros ->. erewrite get_arrayref_spec; [|simpl; apply lookup_insert_eq|done].
    by rewrite slot_get_set.
  - intros Hne. erewrite get_arrayref_spec; [|simpl; apply lookup_insert_eq|done].
    by rewrite slot_get_set_ne.
Qed.

(** [get_arrayref] only reads: whatever its arguments are, a call that
    returns has left the state as it was. *)
Theorem get_arrayref_reads_only args st r st' :
  get_arrayref args st = Return (r, st') → st' = st.
Proof.
  unfold get_arrayref, capsule_error.
  unfold mbind, M_bind, bind, ret, unparsed, undef, get_kd.
  intros H. repeat (case_match; try done); by simplify_eq.
Qed.

(** ** kdinit and kdfree: the references of the index *)

(** What a call of [kdinit] that builds the index does to the state. *)
Lemma kdinit_run fuel st a arr mass nb dim :
  in_int nb = true →
  arrays st !! a = Some arr →
  dims arr !! 0%nat = Some dim →
  0 ≤ int_of_intp dim →
  1 ≤ nb →
  (Z.to_nat (int_of_intp dim) < fuel)%nat →
  ∃ st' k,
    kdinit fuel [PyArr a; mass; PyLong nb] st
    = Return (Ok (PyCapsule (next st)), st')
    ∧ kds st' !! next st = Some k
    ∧ nParticles k = int_of_intp dim
    ∧ nActive k = int_of_intp dim
    ∧ p k ≡ₚ init_particles (int_of_intp dim)
    ∧ pNumpyPos k = Some (PyArr a)
    ∧ pNumpyMass k = Some mass
    ∧ pNumpySmooth k = None
    ∧ pNumpyDen k = None
    ∧ ∀ b, refcnt st' b
           = (λ z, z + refs_to b (Some (PyArr a)) + refs_to b (Some mass))
             <$> refcnt st b.
Proof.
  intros Hint Ha Hdim Hn Hnb Hfuel. unfold kdinit.
  rewrite parse_OOi by done.
  mstep reflexivity.
  mstep (unfold PyArray_DIM; mstep (by apply get_array_run);
              rewrite Hdim; reflexivity).
  mstep (apply get_kd_run, lookup_insert_eq).
  mstep reflexivity.
  match goal with |- context [(Py_INCREF _ ≫= _) ?s] => set (st2 := s) end.
  assert (∀ b, refcnt st2 b = refcnt st b) as Hr2 by done.
  destruct (refcnt_INCREF st2 (PyArr a))
    as (st3 & H3 & Hk3 & _ & _ & _ & Hr3 & Ha3).
  destruct (refcnt_INCREF st3 mass) as (st4 & H4 & Hk4 & _ & _ & _ & Hr4 & Ha4).
  mstep (exact H3). mstep (exact H4).
  destruct (int_of_intp dim <? 0) eqn:Hneg; [apply Z.ltb_lt in Hneg; lia|].
  assert (kds st4 !! next st = kds st2 !! next st) as Hk by by rewrite Hk4, Hk3.
  assert (is_Some (arrays st2 !! a)) as Ha2 by (simpl; by eexists).
  subst st2. cbn [kds set_kds] in Hk. rewrite lookup_insert_eq in Hk.
  mstep (apply get_kd_run, Hk).
  mstep reflexivity.
  destruct (Ha4 a) as [pos Hpos]; [by apply Ha3|].
  destruct (build_node_total fuel pos nb (init_particles (int_of_intp dim)))
    as [t Ht]; [done|by rewrite init_particles_length|].
  mstep (unfold kdBuildTree;
              mstep (apply get_kd_run, lookup_insert_eq);
              cbn [pNumpyPos set_p set_pNumpyDen set_pNumpySmooth
                   set_pNumpyMass set_pNumpyPos empty_context];
              mstep (apply get_array_run, Hpos);
              cbn [nBucket p set_p set_pNumpyDen set_pNumpySmooth
                   set_pNumpyMass set_pNumpyPos set_counts empty_context];
              rewrite Ht; reflexivity).
  eexists _, _. split; [reflexivity|].
  cbn [kds set_kds]. rewrite lookup_insert_eq. split; [reflexivity|].
  do 2 (split; [reflexivity|]).
  split; [simpl; by eapply build_node_perm|].
  repeat (split; [reflexivity|]).
  intros b. unfold refcnt at 1. cbn [arrays set_kds]. fold (refcnt st4 b).
  rewrite Hr4, Hr3, Hr2. destruct (refcnt st b); simpl; f_equal.
Qed.

(** [kdinit] binds the two buffers it is given and takes one reference for
    each; the smoothing-length and density bindings of the new index are
    absent. The mass argument is not inspected: whatever object is passed
    is bound. *)
Theorem kdinit_takes_references fuel st a arr mass nb dim :
  in_int nb = true →
  arrays st !! a = Some arr →
  dims arr !! 0%nat = Some dim →
  0 ≤ int_of_intp dim →
  1 ≤ nb →
  (Z.to_nat (int_of_intp dim) < fuel)%nat →
  ∃ st' k,
    kdinit fuel [PyArr a; mass; PyLong nb] st
    = Return (Ok (PyCapsule (next st)), st')
    ∧ kds st' !! next st = Some k
    ∧ slot_get Mass k = Some mass
    ∧ slot_get Smoothing k = None
    ∧ slot_get Density k = None
    ∧ pNumpyPos k = Some (PyArr a)
    ∧ ∀ b, refcnt st' b
           = (λ z, z + refs_to b (Some (PyArr a)) + refs_to b (Some mass))
             <$> refcnt st b.
Proof.
  intros Hint Ha Hdim Hn Hnb Hfuel.
  destruct (kdinit_run fuel st a arr mass nb dim)
    as (st' & k & Hrun & Hk & _ & _ & _ & Hp & Hm & Hs & Hd & Hr); try done.
  exists st', k. simpl. by repeat (split; [done|]).
Qed.

(** The references of a bare index are balanced: [kdfree] on the handle
    that [kdinit] has just returned puts the reference count of every
    array of the host back to what it was before [kdinit]. *)
Theorem kdinit_kdfree_balanced fuel st a arr mass nb dim :
  in_int nb = true →
  arrays st !! a = Some arr →
  dims arr !! 0%nat = Some dim →
  0 ≤ int_of_intp dim →
  1 ≤ nb →
  (Z.to_nat (int_of_intp dim) < fuel)%nat →
  ∃ st' st'',
    kdinit fuel [PyArr a; mass; PyLong nb] st
    = Return (Ok (PyCapsule (next st)), st')
    ∧ kdfree [PyCapsule (next st)] st' = Return (Ok Py_None, st'')
    ∧ ∀ b, refcnt st'' b = refcnt st b.
Proof.
  intros Hint Ha Hdim Hn Hnb Hfuel.
  destruct (kdinit_run fuel st a arr mass nb dim)
    as (st' & k & Hrun & Hk & _ & _ & _ & Hp & Hm & Hs & Hd & Hr); try done.
  destruct (kdfree_spec _ _ _ Hk) as (st'' & Hfree & _ & Hr').
  exists st', st''. repeat (split; [done|]).
  intros b. rewrite Hr', Hr. unfold released. rewrite Hp, Hm, Hs, Hd.
  destruct (refcnt st b) as [z|]; simpl; [|done].
  f_equal. lia.
Qed.

(** [set_arrayref] followed by [kdfree]. For the smoothing-length, density
    and mass slots the references end up as after [kdfree] alone: the
    reference taken for the new buffer is given back. For the two quantity
    slots it is not: [kdfree] does not look at them, and the reference that
    [set_arrayref] took stays. *)
Theorem set_arrayref_kdfree_balance st kd k arid e b arr :
  kds st !! kd = Some k →
  switch_arid arid = Some e →
  arrays st !! b = Some arr →
  is_double arr = true →
  ∃ st' st'',
    set_arrayref [PyCapsule kd; PyLong arid; PyArr b] st
    = Return (Ok Py_None, st')
    ∧ kdfree [PyCapsule kd] st' = Return (Ok Py_None, st'')
    ∧ ∀ a, refcnt st'' a
           = (λ z, z - released k a
                   + (if kept_by_kdfree e
                      then refs_to a (Some (PyArr b)) - refs_to a (slot_get e k)
                      else 0))
             <$> refcnt st a.
Proof.
  intros Hk He Hb Hd.
  destruct (set_arrayref_run _ _ _ _ _ _ _ Hk He Hb Hd)
    as (st' & Hrun & Hk' & _ & _ & _ & Hr).
  assert (kds st' !! kd = Some (slot_set e (Some (PyArr b)) k)) as Hk''
    by (rewrite Hk'; apply lookup_insert_eq).
  destruct (kdfree_spec _ _ _ Hk'') as (st'' & Hfree & _ & Hr').
  exists st', st''. repeat (split; [done|]).
  intros a. rewrite Hr', Hr.
  destruct (refcnt st a) as [z|]; simpl; [|done]. f_equal.
  unfold released. destruct e; simpl; lia.
Qed.

(** Binding a slot to the buffer it is already bound to changes nothing:
    the reference given back and the reference taken cancel. (The caller
    holds a reference of its own, so the count does not reach 0 in
    between.) *)
Theorem set_arrayref_rebind_same st kd k arid e b arr :
  kds st !! kd = Some k →
  switch_arid arid = Some e →
  arrays st !! b = Some arr →
  is_double arr = true →
  1 < ob_refcnt arr →
  slot_get e k = Some (PyArr b) →
  set_arrayref [PyCapsule kd; PyLong arid; PyArr b] st
  = Return (Ok Py_None, st).
Proof.
  intros Hk He Hb Hd _ Hbound. unfold set_arrayref.
  rewrite parse_OiO by eauto using in_int_slot. cbn [PyCapsule_GetPointer].
  mstep (by apply checkArray_array). rewrite Hd, He.
  mstep (by apply checkArray_array). rewrite Hd.
  mstep (by apply get_kd_run). rewrite Hbound.
  mstep reflexivity. mstep reflexivity. mstep reflexivity.
  unfold ret. do 2 f_equal.
  destruct st as [ars ks ss nx cs]. unfold set_arrays, set_kds. simpl in *.
  f_equal.
  - rewrite alter_alter_eq. apply alter_id. intros arr' _.
    destruct arr'. unfold set_ob_refcnt. simpl. f_equal. lia.
  - apply insert_id. rewrite Hk. f_equal.
    rewrite <- Hbound. by destruct e, k.
Qed.


(** ** populate: what is checked for which property *)

(** [check_arrays] answers the error of the first binding of the list that
    is not a buffer of doubles, and changes nothing. *)
Lemma check_arrays_first st l :
  Forall (checkable st) l →
  check_arrays l st
  = Return (checkArray_error
              <$> List.find (λ ptr, negb (bound_double st ptr)) l, st).
Proof.
  induction 1 as [|ptr l Hptr _ IH]; [done|].
  cbn [check_arrays List.find].
  destruct ptr as [[| | | |a|]|]; try done.
  destruct Hptr as [arr Ha].
  mstep (by apply checkArray_array).
  unfold bound_double. rewrite Ha. simpl.
  destruct (is_double arr); [exact IH|done].
Qed.

(** The list that [populate] checks (the smoothing binding twice for the
    property ids above [PROPID_HSM]) fails first where the list without the
    repetition does. *)
Lemma populate_required_first st propid k :
  List.find (λ ptr, negb (bound_double st ptr))
    ([pNumpySmooth k]
     ++ (if PROPID_HSM <? propid
         then [pNumpyDen k; pNumpyMass k; pNumpySmooth k] else [])
     ++ (if PROPID_RHO <? propid
         then [pNumpyQty k; pNumpyQtySmoothed k] else []))
  = List.find (λ ptr, negb (bound_double st ptr)) (populate_required propid k).
Proof.
  unfold populate_required.
  destruct (PROPID_HSM <? propid), (PROPID_RHO <? propid); cbn [app List.find];
    destruct (bound_double st (pNumpySmooth k)); cbn [negb]; try done;
    destruct (bound_double st (pNumpyDen k)); cbn [negb]; try done;
    destruct (bound_double st (pNumpyMass k)); cbn [negb]; done.
Qed.

Lemma populate_required_checkable st propid k :
  Forall (checkable st) (populate_required propid k) →
  Forall (checkable st)
    ([pNumpySmooth k]
     ++ (if PROPID_HSM <? propid
         then [pNumpyDen k; pNumpyMass k; pNumpySmooth k] else [])
     ++ (if PROPID_RHO <? propid
         then [pNumpyQty k; pNumpyQtySmoothed k] else [])).
Proof.
  unfold populate_required. rewrite !Forall_forall. intros H ptr Hin.
  apply H. revert Hin.
  destruct (PROPID_HSM <? propid), (PROPID_RHO <? propid); cbn [app];
    rewrite ?elem_of_cons, ?elem_of_nil; tauto.
Qed.

Lemma find_forallb {A} (f : A → bool) (l : list A) :
  forallb f l = true → List.find (λ x, negb (f x)) l = None.
Proof.
  induction l as [|x l IH]; [done|]. cbn [forallb List.find].
  intros [-> Hl]%andb_prop. by apply IH.
Qed.

Lemma forallb_checkable st l :
  forallb (bound_double st) l = true → Forall (checkable st) l.
Proof.
  induction l as [|x l IH]; [done|]. cbn [forallb].
  intros [Hx Hl]%andb_prop. constructor; [by apply bound_double_checkable|].
  by apply IH.
Qed.

(** [populate] up to its checks: the handle, the row count and the
    bindings. *)
Lemma populate_checks fuel st kd k smxobj propid procid pa parr dim :
  in_int propid = true →
  in_int procid = true →
  kds st !! kd = Some k →
  pNumpyPos k = Some (PyArr pa) →
  arrays st !! pa = Some parr →
  dims parr !! 0%nat = Some dim →
  Forall (checkable st) (populate_required propid k) →
  populate fuel [PyCapsule kd; smxobj; PyLong propid; PyLong procid] st
  = match List.find (λ ptr, negb (bound_double st ptr))
            (populate_required propid k) with
    | Some ptr => raise (checkArray_error ptr) st
    | None =>
        (smx_global ← of_option (PyCapsule_GetPointer smxobj);
         smx_local ← smInitThreadLocalCopy smx_global;
         s ← get_smx smx_local;
         put_smx smx_local (set_pi 0 (set_warnings false s));;
         (if propid =? PROPID_HSM then
            populate_hsm (Z.to_nat dim) smx_local procid
          else if propid =? PROPID_RHO then
            i ← smGetNext smx_local;
            populate_rho fuel kd smx_local dim i
          else ret tt);;
         smFinishThreadLocalCopy smx_local;;
         ret (Ok Py_None)) st
    end.
Proof.
  intros Hpropid Hprocid Hk Hpos Hpa Hdim Hchk. unfold populate.
  rewrite parse_OOii by done. cbn [PyCapsule_GetPointer].
  mstep reflexivity. mstep (by apply get_kd_run).
  mstep (rewrite Hpos; unfold PyArray_DIM; mstep (by apply get_array_run);
         rewrite Hdim; reflexivity).
  mstep (by apply check_arrays_first, populate_required_checkable).
  rewrite populate_required_first.
  by destruct (List.find _ (populate_required propid k)).
Qed.

(** The bindings that [populate] asks for depend on the property id: the
    smoothing lengths always, density and mass for the ids above
    [PROPID_HSM], the two quantity buffers for the ids above [PROPID_RHO].
    The call fails with the error of the first of them, in this order, that
    is not a buffer of doubles (a ValueError for an absent binding, a
    TypeError for another element type) and leaves the state as it was; when
    all of them are buffers of doubles it raises no error. *)
Theorem populate_gate_by_property fuel st kd k smxobj propid procid pa parr dim :
  in_int propid = true →
  in_int procid = true →
  kds st !! kd = Some k →
  pNumpyPos k = Some (PyArr pa) →
  arrays st !! pa = Some parr →
  dims parr !! 0%nat = Some dim →
  Forall (checkable st) (populate_required propid k) →
  match List.find (λ ptr, negb (bound_double st ptr))
          (populate_required propid k) with
  | Some ptr =>
      populate fuel [PyCapsule kd; smxobj; PyLong propid; PyLong procid] st
      = Return (Err (checkArray_error ptr).1 (checkArray_error ptr).2, st)
  | None =>
      ∀ r st',
        populate fuel [PyCapsule kd; smxobj; PyLong propid; PyLong procid] st
        = Return (r, st') →
        r = Ok Py_None
  end.
Proof.
  intros Hpropid Hprocid Hk Hpos Hpa Hdim Hchk.
  rewrite (populate_checks fuel st kd k smxobj propid procid pa parr dim)
    by done.
  destruct (List.find _ (populate_required propid k)) as [ptr|]; [done|].
  intros r st' Hrun.
  repeat (apply bind_inv in Hrun as (? & ? & _ & Hrun)).
  by inversion Hrun.
Qed.

(** Only the smoothing-length pass and the density pass compute anything.
    For every other property id, the two quantity ids among them,
    [populate] checks the bindings, makes and releases its copy of the
    session, and returns [None]: no buffer is written, no binding changed
    and no call made into the neighbour search. *)
Theorem populate_other_property_no_work
    fuel st kd k g s propid procid pa parr dim :
  in_int propid = true →
  in_int procid = true →
  propid ≠ PROPID_HSM →
  propid ≠ PROPID_RHO →
  kds st !! kd = Some k →
  pNumpyPos k = Some (PyArr pa) →
  arrays st !! pa = Some parr →
  dims parr !! 0%nat = Some dim →
  smxs st !! g = Some s →
  forallb (bound_double st) (populate_required propid k) = true →
  ∃ st',
    populate fuel [PyCapsule kd; PyCapsule g; PyLong propid; PyLong procid] st
    = Return (Ok Py_None, st')
    ∧ arrays st' = arrays st
    ∧ kds st' = kds st
    ∧ calls st' = calls st.
Proof.
  intros Hpropid Hprocid Hhsm Hrho Hk Hpos Hpa Hdim Hg Hall.
  rewrite (populate_checks fuel st kd k (PyCapsule g) propid procid pa parr dim);
    try done.
  2: { by apply forallb_checkable. }
  rewrite find_forallb by done.
  cbn [PyCapsule_GetPointer].
  mstep reflexivity.
  mstep (unfold smInitThreadLocalCopy; mstep (by apply get_smx_run);
         mstep reflexivity; mstep reflexivity; reflexivity).
  mstep (apply get_smx_run; simpl; apply lookup_insert_eq).
  mstep reflexivity.
  destruct (propid =? PROPID_HSM) eqn:E1; [apply Z.eqb_eq in E1; done|].
  destruct (propid =? PROPID_RHO) eqn:E2; [apply Z.eqb_eq in E2; done|].
  mstep reflexivity.
  mstep (unfold smFinishThreadLocalCopy;
         mstep (apply get_smx_run; simpl; apply lookup_insert_eq);
         reflexivity).
  eexists. split; [reflexivity|]. done.
Qed.


(** ** Handles and arguments *)

(** [set_arrayref], [get_arrayref] and [domain_decomposition] test the
    pointer of the handle: given an object that is not a capsule they fail
    with the error that [PyCapsule_GetPointer] has set, before they look at
    anything else, and leave the state as it was. *)
Theorem invalid_handle_rejected st kdobj z o :
  is_capsule kdobj = false →
  in_int z = true →
  set_arrayref [kdobj; PyLong z; o] st = Return (capsule_error, st)
  ∧ get_arrayref [kdobj; PyLong z] st = Return (capsule_error, st)
  ∧ domain_decomposition [kdobj; PyLong z] st = Return (capsule_error, st).
Proof.
  intros Hcap Hint.
  assert (PyCapsule_GetPointer kdobj = None) as Hptr by by destruct kdobj.
  unfold set_arrayref, get_arrayref, domain_decomposition.
  rewrite parse_OiO, parse_Oi, Hptr by done. done.
Qed.

(** [kdfree] and [populate] do not test the pointer of the handle: given
    an object that is not a capsule they dereference the null pointer that
    [PyCapsule_GetPointer] answers. *)
Theorem invalid_handle_dereferenced fuel st kdobj smxobj propid procid :
  is_capsule kdobj = false →
  kdfree [kdobj] st = Undef
  ∧ populate fuel [kdobj; smxobj; PyLong propid; PyLong procid] st = Undef.
Proof.
  intros Hcap.
  assert (PyCapsule_GetPointer kdobj = None) as Hptr by by destruct kdobj.
  split.
  - unfold kdfree. rewrite parse_O, Hptr. done.
  - unfold populate. cbn [PyArg_ParseTuple]. cbn.
    destruct (in_int propid), (in_int procid); cbn; try done.
    all: by rewrite Hptr.
Qed.

(** The capsules of indexes and of sessions carry no name, so the pointer
    of any capsule is taken for an index. A handle whose pointer is not an
    index of the host (the handle of a session, for one) is read as an
    index by every function that expects one: none of them answers an
    error. *)
Theorem foreign_handle_read_as_index
    fuel st h smxobj z arid e b arr propid procid :
  kds st !! h = None →
  in_int z = true →
  switch_arid arid = Some e →
  arrays st !! b = Some arr →
  is_double arr = true →
  kdfree [PyCapsule h] st = Undef
  ∧ get_arrayref [PyCapsule h; PyLong arid] st = Undef
  ∧ set_arrayref [PyCapsule h; PyLong arid; PyArr b] st = Undef
  ∧ domain_decomposition [PyCapsule h; PyLong z] st = Undef
  ∧ populate fuel [PyCapsule h; smxobj; PyLong propid; PyLong procid] st = Undef.
Proof.
  intros Hh Hint He Hb Hd.
  assert (get_kd h st = Undef) as Hget by (unfold get_kd; by rewrite Hh).
  assert (∀ B (f : KD → M B), (get_kd h ≫= f) st = Undef) as Hbind.
  { intros B f. unfold mbind, M_bind, bind. by rewrite Hget. }
  repeat split.
  - unfold kdfree. rewrite parse_O. cbn [PyCapsule_GetPointer].
    mstep reflexivity. unfold kdFinish.
    unfold mbind at 1, M_bind at 1, bind at 1. by rewrite Hbind.
  - unfold get_arrayref. rewrite parse_Oi by eauto using in_int_slot.
    cbn [PyCapsule_GetPointer]. by rewrite He, Hbind.
  - unfold set_arrayref. rewrite parse_OiO by eauto using in_int_slot.
    cbn [PyCapsule_GetPointer].
    mstep (by apply checkArray_array). rewrite Hd, He.
    mstep (by apply checkArray_array). by rewrite Hd, Hbind.
  - unfold domain_decomposition. rewrite parse_Oi by done.
    cbn [PyCapsule_GetPointer]. by rewrite Hbind.
  - unfold populate. cbn [PyArg_ParseTuple]. cbn.
    destruct (in_int propid), (in_int procid); cbn; try done.
    mstep reflexivity. by rewrite Hbind.
Qed.

Lemma PyArg_ParseTuple_length args format l :
  PyArg_ParseTuple args format = Some l →
  length args = String.length format.
Proof.
  revert format l. induction args as [|o args IH]; intros [|c format] l;
    cbn [PyArg_ParseTuple]; try done.
  cbn [length String.length]. intros H. f_equal.
  destruct (Ascii.eqb c "O").
  { destruct (PyArg_ParseTuple args format) as [l'|] eqn:E; [|done].
    by eapply IH. }
  destruct (Ascii.eqb c "i"); [|done].
  destruct o; try done. destruct (in_int z); [|done].
  destruct (PyArg_ParseTuple args format) as [l'|] eqn:E; [|done].
  by eapply IH.
Qed.

Lemma parse_wrong_count args format :
  length args ≠ String.length format → PyArg_ParseTuple args format = None.
Proof.
  intros H. destruct (PyArg_ParseTuple args format) as [l|] eqn:E; [|done].
  by apply PyArg_ParseTuple_length in E.
Qed.

(** Only [kdinit] tests the result of [PyArg_ParseTuple]. Called with a
    wrong number of arguments, [kdinit] fails with the TypeError of the
    parse and changes nothing; every other function of the module goes on
    with the locals that the parse has not set. *)
Theorem wrong_argument_count fuel nProcs args st :
  (length args ≠ 3%nat →
   (∃ msg, kdinit fuel args st = Return (Err PyExc_TypeError msg, st))
   ∧ set_arrayref args st = Undef)
  ∧ (length args ≠ 1%nat →
     kdfree args st = Undef ∧ nn_rewind args st = Undef)
  ∧ (length args ≠ 2%nat →
     nn_start nProcs args st = Undef
     ∧ nn_next args st = Undef
     ∧ nn_stop args st = Undef
     ∧ get_arrayref args st = Undef
     ∧ domain_decomposition args st = Undef)
  ∧ (length args ≠ 4%nat → populate fuel args st = Undef).
Proof.
  repeat split.
  - unfold kdinit. rewrite parse_wrong_count by done. by eexists.
  - unfold set_arrayref. by rewrite parse_wrong_count.
  - unfold kdfree. by rewrite parse_wrong_count.
  - unfold nn_rewind. by rewrite parse_wrong_count.
  - unfold nn_start. by rewrite parse_wrong_count.
  - unfold nn_next. by rewrite parse_wrong_count.
  - unfold nn_stop. by rewrite parse_wrong_count.
  - unfold get_arrayref. by rewrite parse_wrong_count.
  - unfold domain_decomposition. by rewrite parse_wrong_count.
  - intros H. unfold populate. by rewrite parse_wrong_count.
Qed.

(** ** domain_decomposition: the order of the checks *)


(** ** nn_next: the list that is handed back *)

(** The loop of [nn_next] copies the first [n] entries of the scratch
    lists of the session. *)
Lemma nn_fill_take st s n i :
  (i + n ≤ length (pList s))%nat →
  (i + n ≤ length (fList s))%nat →
  nn_fill n (Z.of_nat i) s
    (Some (((Some ∘ PyLong) <$> take i (pList s)) ++ replicate n None))
    (Some (((Some ∘ PyFloat) <$> take i (fList s)) ++ replicate n None)) st
  = Return ((Some ((Some ∘ PyLong) <$> take (i + n) (pList s)),
             Some ((Some ∘ PyFloat) <$> take (i + n) (fList s))), st).
Proof.
  revert i. induction n as [|n IH]; intros i Hp Hf.
  - cbn [nn_fill replicate]. rewrite !app_nil_r, Nat.add_0_r. reflexivity.
  - cbn [nn_fill]. mstep reflexivity. mstep reflexivity.
    rewrite !zlookup_of_nat.
    destruct (lookup_lt_is_Some_2 (pList s) i) as [pj Hpj]; [lia|].
    destruct (lookup_lt_is_Some_2 (fList s) i) as [fj Hfj]; [lia|].
    rewrite Hpj, Hfj. mstep reflexivity. mstep reflexivity.
    unfold PyList_SetItem. rewrite !zinsert_of_nat.
    replace (Z.of_nat i + 1) with (Z.of_nat (S i)) by lia.
    cbn [replicate].
    rewrite !insert_app_r_alt by (rewrite length_fmap, length_take; lia).
    rewrite !length_fmap, !length_take.
    replace (i - i `min` length (pList s))%nat with 0%nat by lia.
    replace (i - i `min` length (fList s))%nat with 0%nat by lia.
    cbn [insert list_insert].
    rewrite !cons_middle, !app_assoc.
    replace (((Some ∘ PyLong) <$> take i (pList s)) ++ [Some (PyLong pj)])
      with ((Some ∘ PyLong) <$> take (S i) (pList s))
      by (by rewrite (take_S_r _ _ _ Hpj), fmap_app).
    replace (((Some ∘ PyFloat) <$> take i (fList s)) ++ [Some (PyFloat fj)])
      with ((Some ∘ PyFloat) <$> take (S i) (fList s))
      by (by rewrite (take_S_r _ _ _ Hfj), fmap_app).
    replace (i + S n)%nat with (S i + n)%nat by lia.
    apply IH; lia.
Qed.

(** What [nn_next] makes of the count that the step of the session
    answers. For the count 0 it returns [None]. For every other count it
    returns a list of four: the cursor position of the session, the
    smoothing length bound for that particle, and the first [nCnt] entries
    of the two scratch lists of the session; for a negative count the two
    inner lists are [NULL]. The state is the one the step has left: the
    index handle, the first argument, is not used. *)
Theorem nn_next_assembles st st1 kd smx nCnt s k q h :
  smSmoothStep smx 0 st = Return (nCnt, st1) →
  (nCnt = 0 →
   nn_next [PyCapsule kd; PyCapsule smx] st = Return (Ok Py_None, st1))
  ∧ (nCnt ≠ 0 →
     smxs st1 !! smx = Some s →
     kds st1 !! smx_kd s = Some k →
     zlookup (p k) (pi s) = Some q →
     GET (pNumpySmooth k) (iOrder q) st1 = Return (h, st1) →
     (Z.to_nat nCnt ≤ length (pList s))%nat →
     (Z.to_nat nCnt ≤ length (fList s))%nat →
     nn_next [PyCapsule kd; PyCapsule smx] st
     = Return (Ok (PyList
                 [Some (PyLong (pi s)); Some (PyFloat h);
                  if nCnt <? 0 then None
                  else Some (PyList ((Some ∘ PyLong)
                                       <$> take (Z.to_nat nCnt) (pList s)));
                  if nCnt <? 0 then None
                  else Some (PyList ((Some ∘ PyFloat)
                                       <$> take (Z.to_nat nCnt) (fList s)))]),
               st1)).
Proof.
  intros Hstep. unfold nn_next. rewrite parse_OO. cbn [PyCapsule_GetPointer].
  split.
  - intros ->. mstep reflexivity. mstep (exact Hstep). reflexivity.
  - intros Hn Hs Hk Hq Hh Hp Hf.
    mstep reflexivity. mstep (exact Hstep).
    destruct (nCnt =? 0) eqn:E; [by apply Z.eqb_eq in E|]. cbn [negb].
    mstep reflexivity. unfold PyList_New.
    destruct (nCnt <? 0) eqn:Hneg.
    + apply Z.ltb_lt in Hneg.
      replace (Z.to_nat nCnt) with 0%nat by lia.
      mstep (mstep (by apply get_smx_run); reflexivity).
      cbv beta iota. mstep (by apply get_smx_run).
      mstep (by apply get_kd_run). rewrite Hq. mstep reflexivity.
      mstep (exact Hh). reflexivity.
    + mstep (mstep (by apply get_smx_run);
             apply (nn_fill_take st1 s (Z.to_nat nCnt) 0); simpl; lia).
      cbv beta iota. mstep (by apply get_smx_run).
      mstep (by apply get_kd_run). rewrite Hq. mstep reflexivity.
      mstep (exact Hh). reflexivity.
Qed.

(** ** The functions without an error path *)

(** [kdfree], [nn_stop] and [nn_rewind] have no error path: whatever they
    are called with, they hand no error back to the interpreter. *)
Theorem teardown_never_raises args st :
  ¬ raises (kdfree args st)
  ∧ ¬ raises (nn_stop args st)
  ∧ ¬ raises (nn_rewind args st).
Proof.
  assert (∀ m : M PyRet,
            (∀ r st', m st = Return (r, st') → ¬ is_err r) →
            ¬ raises (m st)) as Hraises.
  { intros m H. unfold raises.
    destruct (m st) as [[[o|e msg] st']| | |]; try tauto.
    intros _. by apply (H (Err e msg) st'). }
  repeat split; apply Hraises; intros r st'.
  - unfold kdfree. repeat (case_match; try done). intros Hrun.
    repeat (apply bind_inv in Hrun as (? & ? & _ & Hrun)).
    inversion Hrun. tauto.
  - unfold nn_stop. repeat (case_match; try done). intros Hrun.
    repeat (apply bind_inv in Hrun as (? & ? & _ & Hrun)).
    inversion Hrun. tauto.
  - unfold nn_rewind. repeat (case_match; try done). intros Hrun.
    repeat (apply bind_inv in Hrun as (? & ? & _ & Hrun)).
    inversion Hrun. tauto.
Qed.

(** ** kdinit: the particles of the index *)

(** Every particle of the index that [kdinit] returns is marked active,
    and its original index is a row of the position buffer: the index holds
    as many particles as [kdinit] has counted rows, all of them active. *)
Theorem kdinit_particles_in_range fuel st a arr mass nb dim :
  in_int nb = true →
  arrays st !! a = Some arr →
  dims arr !! 0%nat = Some dim →
  0 ≤ int_of_intp dim →
  1 ≤ nb →
  (Z.to_nat (int_of_intp dim) < fuel)%nat →
  ∃ st' k,
    kdinit fuel [PyArr a; mass; PyLong nb] st
    = Return (Ok (PyCapsule (next st)), st')
    ∧ kds st' !! next st = Some k
    ∧ nActive k = nParticles k
    ∧ Z.of_nat (length (p k)) = nParticles k
    ∧ ∀ q, q ∈ p k → iMark q = 1 ∧ 0 ≤ iOrder q < nParticles k.
Proof.
  intros Hint Ha Hdim Hn Hnb Hfuel.
  destruct (kdinit_run fuel st a arr mass nb dim)
    as (st' & k & Hrun & Hk & Hcount & Hact & Hperm & _); try done.
  exists st', k. repeat (split; [done|]).
  split; [congruence|]. split.
  - rewrite (Permutation_length Hperm), init_particles_length. lia.
  - intros q Hq. rewrite Hperm in Hq. unfold init_particles in Hq.
    apply list_elem_of_fmap in Hq as (i & -> & Hi).
    apply elem_of_seqZ in Hi. simpl. lia.
Qed.

(** [kdinit] keeps the row count of the position buffer in an [int]: of a
    buffer with [n + 2^32 * m] rows, [0 ≤ n < 2^31], it indexes the first
    [n] rows only, and raises no error. *)
Theorem kdinit_row_count_wraps fuel st a arr mass nb dim n m :
  in_int nb = true →
  arrays st !! a = Some arr →
  dims arr !! 0%nat = Some dim →
  dim = n + 2 ^ 32 * m →
  0 ≤ n < 2 ^ 31 →
  1 ≤ nb →
  (Z.to_nat n < fuel)%nat →
  ∃ st' k,
    kdinit fuel [PyArr a; mass; PyLong nb] st
    = Return (Ok (PyCapsule (next st)), st')
    ∧ kds st' !! next st = Some k
    ∧ nParticles k = n
    ∧ iOrder <$> p k ≡ₚ seqZ 0 n.
Proof.
  intros Hint Ha Hdim -> Hn Hnb Hfuel.
  assert (int_of_intp (n + 2 ^ 32 * m) = n) as Hwrap.
  { unfold int_of_intp.
    replace (n + 2 ^ 32 * m + 2 ^ 31) with (n + 2 ^ 31 + m * 2 ^ 32) by lia.
    rewrite Z_mod_plus_full, Z.mod_small; lia. }
  destruct (kdinit_run fuel st a arr mass nb (n + 2 ^ 32 * m))
    as (st' & k & Hrun & Hk & Hcount & _ & Hperm & _);
    rewrite ?Hwrap; try done; [lia|].
  exists st', k. repeat (split; [done|]).
  rewrite Hwrap in Hcount, Hperm. split; [done|].
  by rewrite Hperm, init_particles_iOrder.
Qed.

(** ** The method table *)

(** No name of the method table runs the C function [get_arrayref]: the
    function cannot be called from Python. *)
Theorem get_arrayref_unreachable fuel nProcs name f :
  find_method name (kdmain_methods fuel nProcs) = Some f →
  f ≠ get_arrayref.
Proof.
  intros Hfind Heq. subst f.
  pose (st0 := {| arrays := ∅; kds := {[1%positive := empty_context 0]};
                  smxs := ∅; next := 2%positive; calls := [] |}).
  pose (args := [PyCapsule 1; PyLong 0]).
  assert (get_arrayref args st0 = Return (Ok Py_None, st0)) as Hget
    by reflexivity.
  cbn [kdmain_methods find_method] in Hfind.
  repeat match type of Hfind with
         | (if ?b then _ else _) = _ =>
             destruct b;
             [injection Hfind as Heq;
              apply (f_equal (λ g, g args st0)) in Heq;
              rewrite Hget in Heq; vm_compute in Heq; discriminate|]
         end.
  done.
Qed.


(** ** set_arrayref: binding a slot twice *)

Lemma Py_XDECREF_descr st (ptr : option PyObject) st' :
  Py_XDECREF ptr st = Return (tt, st') →
  ∀ a, descr <$> arrays st' !! a = descr <$> arrays st !! a.
Proof.
  destruct ptr as [[| | | |b|]|]; simpl; intros [= <-]; try done.
  intros a. simpl. rewrite lookup_alter.
  case_decide; subst; by destruct (arrays st !! _).
Qed.

Lemma Py_INCREF_descr st o st' :
  Py_INCREF o st = Return (tt, st') →
  ∀ a, descr <$> arrays st' !! a = descr <$> arrays st !! a.
Proof.
  destruct o as [| | | |b|]; simpl; intros [= <-]; try done.
  intros a. simpl. rewrite lookup_alter.
  case_decide; subst; by destruct (arrays st !! _).
Qed.

(** [set_arrayref] leaves the element type of every array as it is. *)
Lemma set_arrayref_descr st st' kd k arid e b arr :
  kds st !! kd = Some k →
  switch_arid arid = Some e →
  arrays st !! b = Some arr →
  is_double arr = true →
  set_arrayref [PyCapsule kd; PyLong arid; PyArr b] st = Return (Ok Py_None, st') →
  ∀ a, descr <$> arrays st' !! a = descr <$> arrays st !! a.
Proof.
  intros Hk He Hb Hd. unfold set_arrayref.
  rewrite parse_OiO by eauto using in_int_slot. cbn [PyCapsule_GetPointer].
  mstep (by apply checkArray_array). rewrite Hd, He.
  mstep (by apply checkArray_array). rewrite Hd.
  mstep (by apply get_kd_run).
  destruct (refcnt_XDECREF st (slot_get e k)) as (st1 & H1 & _).
  mstep (exact H1). mstep reflexivity.
  match goal with |- context [(Py_INCREF _ ≫= _) ?s] => set (st2 := s) end.
  destruct (refcnt_INCREF st2 (PyArr b)) as (st3 & H3 & _).
  mstep (exact H3). intros [= <-] a.
  rewrite (Py_INCREF_descr _ _ _ H3). subst st2. cbn [arrays set_kds].
  apply (Py_XDECREF_descr _ _ _ H1).
Qed.

Lemma slot_set_set e v w k : slot_set e w (slot_set e v k) = slot_set e w k.
Proof. by destruct e. Qed.

(** Rebinding a slot leaks no reference: binding a buffer and then another
    one to the same slot leaves the bindings and every reference count as
    binding the second buffer alone does. *)
Theorem set_arrayref_overwrite st kd k arid e b arr b' arr' :
  kds st !! kd = Some k →
  switch_arid arid = Some e →
  arrays st !! b = Some arr →
  is_double arr = true →
  arrays st !! b' = Some arr' →
  is_double arr' = true →
  ∃ st1 st2 st2',
    set_arrayref [PyCapsule kd; PyLong arid; PyArr b] st
    = Return (Ok Py_None, st1)
    ∧ set_arrayref [PyCapsule kd; PyLong arid; PyArr b'] st1
      = Return (Ok Py_None, st2)
    ∧ set_arrayref [PyCapsule kd; PyLong arid; PyArr b'] st
      = Return (Ok Py_None, st2')
    ∧ kds st2 = kds st2'
    ∧ ∀ a, refcnt st2 a = refcnt st2' a.
Proof.
  intros Hk He Hb Hd Hb' Hd'.
  destruct (set_arrayref_run _ _ _ _ _ _ _ Hk He Hb Hd)
    as (st1 & Hrun1 & Hk1 & _ & _ & _ & Hr1).
  assert (kds st1 !! kd = Some (slot_set e (Some (PyArr b)) k)) as Hk1'
    by (rewrite Hk1; apply lookup_insert_eq).
  assert (∃ arr1, arrays st1 !! b' = Some arr1 ∧ is_double arr1 = true)
    as (arr1 & Hb1 & Hd1).
  { pose proof (set_arrayref_descr _ _ _ _ _ _ _ _ Hk He Hb Hd Hrun1 b') as Hdescr.
    rewrite Hb' in Hdescr. destruct (arrays st1 !! b') as [arr1|]; [|done].
    exists arr1. split; [done|]. inversion Hdescr as [Heq].
    unfold is_double in *. by rewrite Heq. }
  destruct (set_arrayref_run _ _ _ _ _ _ _ Hk1' He Hb1 Hd1)
    as (st2 & Hrun2 & Hk2 & _ & _ & _ & Hr2).
  destruct (set_arrayref_run _ _ _ _ _ _ _ Hk He Hb' Hd')
    as (st2' & Hrun2' & Hk2' & _ & _ & _ & Hr2').
  exists st1, st2, st2'. repeat (split; [done|]). split.
  - by rewrite Hk2, Hk2', Hk1, insert_insert_eq, slot_set_set.
  - intros a. rewrite Hr2, Hr2', Hr1, slot_get_set.
    destruct (refcnt st a) as [z|]; simpl; [|done]. f_equal. lia.
Qed.

(** ** Integer arguments *)



End Properties.

(** * The statements on the host with five particles *)

Section Instances.

#[local] Existing Instance ZNumeric.

(** The index over the five particles holds the original indices 0 to 4,
    each once. *)
Lemma kdinit_permutation_five :
  ∃ st' k,
    kdinit 10 [PyArr 1; PyArr 2; PyLong 2] ex_host
    = Return (Ok (PyCapsule 10), st')
    ∧ kds st' !! 10%positive = Some k
    ∧ nParticles k = 5
    ∧ iOrder <$> p k ≡ₚ seqZ 0 5.
Proof.
  apply (kdinit_permutation 10 ex_host 1 ex_pos (PyArr 2) 2 5 5);
    [reflexivity|reflexivity|reflexivity|reflexivity|lia|lia|simpl; lia].
Defined.

(** [kdinit] on a position buffer without rows, with bucket capacity 8 and
    with bucket capacity 0: an index handle is returned, no error raised. *)
Lemma kdinit_accepts_no_rows :
  returned (kdinit 1 [PyArr 7; PyArr 2; PyLong 8] ex_host)
  = Some (Ok (PyCapsule 10))
  ∧ returned (kdinit 1 [PyArr 7; PyArr 2; PyLong 0] ex_host)
    = Some (Ok (PyCapsule 10)).
Proof. split; vm_compute; reflexivity. Qed.

(** With bucket capacity 8 the position buffer without rows yields an index
    handle. *)
Lemma kdinit_never_invalid_argument_no_rows :
  ∃ st', kdinit 10 [PyArr 7; PyArr 2; PyLong 8] ex_host
         = Return (Ok (PyCapsule 10), st').
Proof.
  destruct (kdinit_never_invalid_argument 10 ex_host (PyArr 7) (PyArr 2) 8)
    as [_ H]; [reflexivity|].
  apply (H 7%positive ex_no_rows 0);
    [reflexivity|reflexivity|reflexivity|vm_compute; discriminate|lia
    |vm_compute; lia].
Defined.

(** A buffer of seven doubles is bound to an index of five particles. *)
Lemma set_arrayref_accepts_wrong_length :
  kds ex_built !! 10%positive = Some ex_k0
  ∧ arrays ex_built !! 6%positive = Some ex_long
  ∧ spec_bindable ex_k0 ex_long = false
  ∧ returned (set_arrayref [PyCapsule 10; PyLong 0; PyArr 6] ex_built)
    = Some (Ok Py_None)
  ∧ pNumpySmooth
      <$> kds (state_after (set_arrayref [PyCapsule 10; PyLong 0; PyArr 6]
                              ex_built)) !! 10%positive
    = Some (Some (PyArr 6)).
Proof. repeat split; vm_compute; reflexivity. Qed.

(** The buffer of five doubles is bound as smoothing-length buffer; the
    other slots stay as they are. *)
Lemma set_arrayref_accepts_double_five :
  ∃ st' k',
    set_arrayref [PyCapsule 10; PyLong 0; PyArr 3] ex_built
    = Return (Ok Py_None, st')
    ∧ kds st' !! 10%positive = Some k'
    ∧ slot_get Smoothing k' = Some (PyArr 3)
    ∧ ∀ e', e' ≠ Smoothing → slot_get e' k' = slot_get e' ex_k0.
Proof.
  apply (set_arrayref_accepts_double ex_built 10 ex_k0 0 Smoothing 3 ex_zeros);
    reflexivity.
Defined.


(** Zero workers on the index with a bound smoothing buffer. *)
Lemma domain_decomposition_zero_workers :
  ∃ r st',
    domain_decomposition [PyCapsule 10; PyLong 0] ex_bound = Return (r, st')
    ∧ (is_err r ↔ 0 < 0 ∨ bound_double ex_bound (pNumpySmooth ex_k) = false)
    ∧ (is_err r → st' = ex_bound)
    ∧ (0 = 0 → bound_double ex_bound (pNumpySmooth ex_k) = true →
       r = Ok Py_None ∧ st' = ex_bound).
Proof.
  apply (domain_decomposition_validates ex_bound 10 ex_k 0);
    [reflexivity|vm_compute; reflexivity|vm_compute; eauto].
Defined.

(** The density pass on the index without bound smoothing and density
    buffers. *)
Lemma populate_density_gate_unbound :
  ∃ e msg,
    populate 10 [PyCapsule 10; PyCapsule 11; PyLong PROPID_RHO; PyLong 0]
      ex_built
    = Return (Err e msg, ex_built).
Proof.
  apply (populate_density_gate 10 ex_built 10 ex_k0 (PyCapsule 11) 0 1
           ex_pos' 5);
    [reflexivity|vm_compute; reflexivity|reflexivity|vm_compute; reflexivity
    |reflexivity|exact I|exact I|vm_compute; eauto|vm_compute; reflexivity].
Defined.



(** The sixth step of a session over five particles. *)
Lemma nn_next_sixth_step :
  nn_next [PyCapsule 10; PyCapsule 11] ex_stepped
  = Return (Ok (PyList [Some (PyLong 4); Some (PyFloat 1); None; None]),
            set_calls (calls ex_stepped ++ [Call_smSmoothStep 0 (-1)])
              ex_stepped).
Proof.
  apply (nn_next_exhausted_not_done ex_stepped (PyCapsule 10) 11 ex_s ex_k ex_s
           {| iOrder := 1; iMark := 1 |} 3 ex_smooth' 1);
    try (vm_compute; reflexivity).
  vm_compute. discriminate.
Defined.


(** The whole density pass over the five particles: each particle counts
    the unit masses within distance 2. *)
Lemma populate_density_pass_five :
  returned (populate 10 [PyCapsule 10; PyCapsule 11; PyLong PROPID_RHO;
                         PyLong 0] ex_smoothed)
  = Some (Ok Py_None)
  ∧ data <$> arrays (state_after
               (populate 10 [PyCapsule 10; PyCapsule 11; PyLong PROPID_RHO;
                             PyLong 0] ex_smoothed)) !! 4%positive
    = Some [3; 3; 4; 4; 5].
Proof. split; vm_compute; reflexivity. Qed.

(** The first step of the session over the five particles. *)
Lemma nn_next_first_step :
  returned (nn_next [PyCapsule 10; PyCapsule 11] ex_smoothed)
  = Some (Ok (PyList [Some (PyLong 0); Some (PyFloat 1);
                      Some (PyList [Some (PyLong 0); Some (PyLong 1)]);
                      Some (PyList [Some (PyFloat 0); Some (PyFloat 1)])])).
Proof. vm_compute. reflexivity. Qed.

(** ** The further properties on the host *)

(** The buffer of C floats does not pass [checkArray]. *)
Lemma checkArray_classifies_floats :
  ∃ c,
    checkArray (Some (PyArr 5)) ex_host = Return (c, ex_host)
    ∧ match c with
      | None => bound_double ex_host (Some (PyArr 5)) = true
      | Some (e, _) =>
          bound_double ex_host (Some (PyArr 5)) = false
          ∧ (Some (PyArr 5) = None → e = PyExc_ValueError)
          ∧ (Some (PyArr 5) ≠ None → e = PyExc_TypeError)
      end.
Proof.
  apply (checkArray_classifies ex_host (Some (PyArr 5))).
  vm_compute. eauto.
Defined.

(** Binding the smoothing buffer of the bare index. *)
Lemma set_arrayref_moves_reference_five :
  ∃ st',
    set_arrayref [PyCapsule 10; PyLong 0; PyArr 3] ex_built
    = Return (Ok Py_None, st')
    ∧ ∀ a, refcnt st' a
           = (λ z, z - refs_to a (slot_get Smoothing ex_k0)
                   + refs_to a (Some (PyArr 3)))
             <$> refcnt ex_built a.
Proof.
  apply (set_arrayref_moves_reference ex_built 10 ex_k0 0 Smoothing 3 ex_zeros);
    reflexivity.
Defined.

(** The buffer of C floats is refused and the index stays as it is. *)
Lemma set_arrayref_error_keeps_state_floats :
  state_after (set_arrayref [PyCapsule 10; PyLong 0; PyArr 5] ex_built)
  = ex_built.
Proof.
  apply (set_arrayref_error_keeps_state [PyCapsule 10; PyLong 0; PyArr 5]
           ex_built
           (Err PyExc_TypeError
              "Incorrect numpy data type to kdtree - must match C double"));
    [vm_compute; reflexivity|exact I].
Defined.

(** A call with three faults reports the handle; with a handle, the element
    type. *)
Lemma set_arrayref_error_precedence_floats :
  set_arrayref [Py_None; PyLong 7; PyArr 5] ex_built
  = Return (capsule_error, ex_built)
  ∧ set_arrayref [PyCapsule 10; PyLong 7; PyArr 5] ex_built
    = Return (Err PyExc_TypeError
                "Incorrect numpy data type to kdtree - must match C double",
              ex_built)
  ∧ set_arrayref [PyCapsule 10; PyLong 7; PyArr 3] ex_built
    = Return (Err PyExc_ValueError "Unknown array to set for KD tree", ex_built).
Proof.
  repeat apply conj.
  - destruct (set_arrayref_error_precedence ex_built Py_None 7 5 ex_floats)
      as (H & _ & _); [reflexivity|reflexivity|].
    apply H. reflexivity.
  - destruct (set_arrayref_error_precedence ex_built (PyCapsule 10) 7 5
                ex_floats) as (_ & H & _); [reflexivity|reflexivity|].
    apply H; [vm_compute; eauto|reflexivity].
  - destruct (set_arrayref_error_precedence ex_built (PyCapsule 10) 7 3
                ex_zeros) as (_ & _ & H); [reflexivity|reflexivity|].
    apply H; [vm_compute; eauto|reflexivity|reflexivity].
Defined.

(** After the smoothing buffer is bound, slot 0 answers it and slot 2 the
    masses. *)
Lemma get_arrayref_set_arrayref_five :
  get_arrayref [PyCapsule 10; PyLong 0]
    (state_after (set_arrayref [PyCapsule 10; PyLong 0; PyArr 3] ex_built))
  = Return (Ok (PyArr 3),
            state_after (set_arrayref [PyCapsule 10; PyLong 0; PyArr 3] ex_built))
  ∧ get_arrayref [PyCapsule 10; PyLong 2]
      (state_after (set_arrayref [PyCapsule 10; PyLong 0; PyArr 3] ex_built))
    = Return (Ok (PyArr 2),
              state_after (set_arrayref [PyCapsule 10; PyLong 0; PyArr 3] ex_built)).
Proof.
  split.
  - destruct (get_arrayref_set_arrayref ex_built
                (state_after (set_arrayref [PyCapsule 10; PyLong 0; PyArr 3]
                                ex_built))
                10 ex_k0 0 0 Smoothing Smoothing 3) as (H & _);
      [vm_compute; reflexivity|reflexivity|reflexivity|vm_compute; reflexivity|].
    apply H. reflexivity.
  - destruct (get_arrayref_set_arrayref ex_built
                (state_after (set_arrayref [PyCapsule 10; PyLong 0; PyArr 3]
                                ex_built))
                10 ex_k0 0 2 Smoothing Mass 3) as (_ & H);
      [vm_compute; reflexivity|reflexivity|reflexivity|vm_compute; reflexivity|].
    apply H. discriminate.
Defined.

(** Reading the mass slot of the bare index. *)
Lemma get_arrayref_reads_only_five :
  state_after (get_arrayref [PyCapsule 10; PyLong 2] ex_built) = ex_built.
Proof.
  apply (get_arrayref_reads_only [PyCapsule 10; PyLong 2] ex_built
           (Ok (PyArr 2))).
  vm_compute. reflexivity.
Defined.


(** [kdinit] over the five particles takes one reference for the positions
    and one for the masses. *)
Lemma kdinit_takes_references_five :
  ∃ st' k,
    kdinit 10 [PyArr 1; PyArr 2; PyLong 2] ex_host
    = Return (Ok (PyCapsule 10), st')
    ∧ kds st' !! 10%positive = Some k
    ∧ slot_get Mass k = Some (PyArr 2)
    ∧ slot_get Smoothing k = None
    ∧ slot_get Density k = None
    ∧ pNumpyPos k = Some (PyArr 1)
    ∧ ∀ b, refcnt st' b
           = (λ z, z + refs_to b (Some (PyArr 1)) + refs_to b (Some (PyArr 2)))
             <$> refcnt ex_host b.
Proof.
  apply (kdinit_takes_references 10 ex_host 1 ex_pos (PyArr 2) 2 5);
    [reflexivity|reflexivity|reflexivity|vm_compute; discriminate|lia
    |vm_compute; lia].
Defined.

(** Building and freeing the index over the five particles. *)
Lemma kdinit_kdfree_balanced_five :
  ∃ st' st'',
    kdinit 10 [PyArr 1; PyArr 2; PyLong 2] ex_host
    = Return (Ok (PyCapsule 10), st')
    ∧ kdfree [PyCapsule 10] st' = Return (Ok Py_None, st'')
    ∧ ∀ b, refcnt st'' b = refcnt ex_host b.
Proof.
  apply (kdinit_kdfree_balanced 10 ex_host 1 ex_pos (PyArr 2) 2 5);
    [reflexivity|reflexivity|reflexivity|vm_compute; discriminate|lia
    |vm_compute; lia].
Defined.

(** The buffer of seven doubles bound as quantity, then [kdfree]. *)
Lemma set_arrayref_kdfree_balance_quantity :
  ∃ st' st'',
    set_arrayref [PyCapsule 10; PyLong 3; PyArr 6] ex_built
    = Return (Ok Py_None, st')
    ∧ kdfree [PyCapsule 10] st' = Return (Ok Py_None, st'')
    ∧ ∀ a, refcnt st'' a
           = (λ z, z - released ex_k0 a
                   + (if kept_by_kdfree Quantity
                      then refs_to a (Some (PyArr 6))
                           - refs_to a (slot_get Quantity ex_k0)
                      else 0))
             <$> refcnt ex_built a.
Proof.
  apply (set_arrayref_kdfree_balance ex_built 10 ex_k0 3 Quantity 6 ex_long);
    reflexivity.
Defined.

(** Binding the smoothing buffer a second time. *)
Lemma set_arrayref_rebind_same_five :
  set_arrayref [PyCapsule 10; PyLong 0; PyArr 3] ex_bound
  = Return (Ok Py_None, ex_bound).
Proof.
  apply (set_arrayref_rebind_same ex_bound 10 ex_k 0 Smoothing 3
           (set_ob_refcnt 2 ex_zeros));
    [vm_compute; reflexivity|reflexivity|vm_compute; reflexivity|reflexivity
    |simpl; lia|reflexivity].
Defined.

(** A quantity pass on the bare index fails on the absent smoothing
    buffer. *)
Lemma populate_gate_by_property_bare :
  populate 10 [PyCapsule 10; PyCapsule 11; PyLong PROPID_QTY1D; PyLong 0]
    ex_built
  = Return (Err PyExc_ValueError "Unspecified array in kdtree", ex_built).
Proof.
  apply (populate_gate_by_property 10 ex_built 10 ex_k0 (PyCapsule 11)
           PROPID_QTY1D 0 1 ex_pos' 5);
    [reflexivity|reflexivity|vm_compute; reflexivity|reflexivity
    |vm_compute; reflexivity|reflexivity|].
  change (Forall (checkable ex_built) [None; None; Some (PyArr 2); None; None]).
  repeat (constructor; [first [exact I|vm_compute; eauto]|]). constructor.
Defined.

(** A quantity pass on the index with every buffer bound. *)
Lemma populate_other_property_no_work_quantity :
  ∃ st',
    populate 10 [PyCapsule 10; PyCapsule 11; PyLong PROPID_QTY1D; PyLong 0]
      ex_all_bound
    = Return (Ok Py_None, st')
    ∧ arrays st' = arrays ex_all_bound
    ∧ kds st' = kds ex_all_bound
    ∧ calls st' = calls ex_all_bound.
Proof.
  apply (populate_other_property_no_work 10 ex_all_bound 10 ex_k_all 11
           (new_session 10 2) PROPID_QTY1D 0 1 ex_pos' 5);
    try (vm_compute; reflexivity); discriminate.
Defined.

(** [None] in the place of the handle. *)
Lemma invalid_handle_rejected_none :
  set_arrayref [Py_None; PyLong 0; PyArr 3] ex_built
  = Return (capsule_error, ex_built)
  ∧ get_arrayref [Py_None; PyLong 0] ex_built = Return (capsule_error, ex_built)
  ∧ domain_decomposition [Py_None; PyLong 0] ex_built
    = Return (capsule_error, ex_built).
Proof.
  apply (invalid_handle_rejected ex_built Py_None 0 (PyArr 3)); reflexivity.
Defined.

Lemma invalid_handle_dereferenced_none :
  kdfree [Py_None] ex_built = Undef
  ∧ populate 10 [Py_None; PyCapsule 11; PyLong PROPID_RHO; PyLong 0] ex_built
    = Undef.
Proof.
  apply (invalid_handle_dereferenced 10 ex_built Py_None (PyCapsule 11)
           PROPID_RHO 0).
  reflexivity.
Defined.

(** The handle of the session, 11, in the place of the index handle. *)
Lemma foreign_handle_read_as_index_session :
  kdfree [PyCapsule 11] ex_session = Undef
  ∧ get_arrayref [PyCapsule 11; PyLong 0] ex_session = Undef
  ∧ set_arrayref [PyCapsule 11; PyLong 0; PyArr 6] ex_session = Undef
  ∧ domain_decomposition [PyCapsule 11; PyLong 2] ex_session = Undef
  ∧ populate 10 [PyCapsule 11; PyCapsule 11; PyLong PROPID_HSM; PyLong 0]
      ex_session = Undef.
Proof.
  apply (foreign_handle_read_as_index 10 ex_session 11 (PyCapsule 11) 2 0
           Smoothing 6 ex_long PROPID_HSM 0);
    try reflexivity; vm_compute; reflexivity.
Defined.

(** Calls without arguments. *)
Lemma wrong_argument_count_none :
  ((∃ msg, kdinit 10 [] ex_host = Return (Err PyExc_TypeError msg, ex_host))
   ∧ set_arrayref [] ex_host = Undef)
  ∧ (kdfree [] ex_host = Undef ∧ nn_rewind [] ex_host = Undef)
  ∧ (nn_start 0 [] ex_host = Undef
     ∧ nn_next [] ex_host = Undef
     ∧ nn_stop [] ex_host = Undef
     ∧ get_arrayref [] ex_host = Undef
     ∧ domain_decomposition [] ex_host = Undef)
  ∧ populate 10 [] ex_host = Undef.
Proof.
  destruct (wrong_argument_count 10 0 [] ex_host) as (H3 & H1 & H2 & H4).
  repeat apply conj;
    first [apply H3|apply H1|apply H2|apply H4]; discriminate.
Defined.


(** The first step of the second pass over the five particles: the
    particle at the cursor position 0 with its two nearest neighbours. *)
Lemma nn_next_assembles_first_step :
  nn_next [PyCapsule 10; PyCapsule 11] ex_smoothed
  = Return (Ok (PyList
              [Some (PyLong (pi ex_s1)); Some (PyFloat 1);
               if 2 <? 0 then None
               else Some (PyList ((Some ∘ PyLong)
                                    <$> take (Z.to_nat 2) (pList ex_s1)));
               if 2 <? 0 then None
               else Some (PyList ((Some ∘ PyFloat)
                                    <$> take (Z.to_nat 2) (fList ex_s1)))]),
            ex_step1).
Proof.
  destruct (nn_next_assembles ex_smoothed ex_step1 10 11 2 ex_s1 ex_k
              {| iOrder := 0; iMark := 1 |} 1) as (_ & H);
    [vm_compute; reflexivity|].
  apply H; first [vm_compute; reflexivity|discriminate].
Defined.

(** The particles of the index over the five particles. *)
Lemma kdinit_particles_in_range_five :
  ∃ st' k,
    kdinit 10 [PyArr 1; PyArr 2; PyLong 2] ex_host
    = Return (Ok (PyCapsule 10), st')
    ∧ kds st' !! 10%positive = Some k
    ∧ nActive k = nParticles k
    ∧ Z.of_nat (length (p k)) = nParticles k
    ∧ ∀ q, q ∈ p k → iMark q = 1 ∧ 0 ≤ iOrder q < nParticles k.
Proof.
  apply (kdinit_particles_in_range 10 ex_host 1 ex_pos (PyArr 2) 2 5);
    [reflexivity|reflexivity|reflexivity|vm_compute; discriminate|lia
    |vm_compute; lia].
Defined.

(** Of the position buffer with 2^32 + 2 rows, two are indexed. *)
Lemma kdinit_row_count_wraps_wide :
  ∃ st' k,
    kdinit 10 [PyArr 8; PyArr 2; PyLong 2] ex_host_wide
    = Return (Ok (PyCapsule 10), st')
    ∧ kds st' !! 10%positive = Some k
    ∧ nParticles k = 2
    ∧ iOrder <$> p k ≡ₚ seqZ 0 2.
Proof.
  apply (kdinit_row_count_wraps 10 ex_host_wide 8 ex_wide (PyArr 2) 2
           (2 ^ 32 + 2) 2 1);
    [reflexivity|reflexivity|reflexivity|reflexivity|lia|lia|simpl; lia].
Defined.

(** The name [free] runs [kdfree], which is not [get_arrayref]. *)
Lemma get_arrayref_unreachable_free :
  kdfree ≠ get_arrayref.
Proof.
  apply (get_arrayref_unreachable 0 0 "free" kdfree). reflexivity.
Defined.


(** The smoothing slot bound to array 3 and then to array 4, and to array 4
    at once. *)
Lemma set_arrayref_overwrite_five :
  ∃ st1 st2 st2',
    set_arrayref [PyCapsule 10; PyLong 0; PyArr 3] ex_built
    = Return (Ok Py_None, st1)
    ∧ set_arrayref [PyCapsule 10; PyLong 0; PyArr 4] st1
      = Return (Ok Py_None, st2)
    ∧ set_arrayref [PyCapsule 10; PyLong 0; PyArr 4] ex_built
      = Return (Ok Py_None, st2')
    ∧ kds st2 = kds st2'
    ∧ ∀ a, refcnt st2 a = refcnt st2' a.
Proof.
  apply (set_arrayref_overwrite ex_built 10 ex_k0 0 Smoothing 3 ex_zeros
           4 ex_zeros); reflexivity.
Defined.



End Instances.

End Kdmain.
